(** * Translation engine: the translation request pipeline

    A shallow embedding of [src/app/main.py] and [src/app/main_vercel.py]
    (the FastAPI handlers [translate_text], [get_supported_languages] and the
    helper [detect_language_with_confidence]) together with the part of the
    Python runtime they rely on: [str] values, [float] arithmetic, exceptions
    and the two third-party collaborators ([langdetect.detect] and
    [deep_translator.GoogleTranslator]). *)

From Stdlib Require Import ZArith NArith List String Ascii Bool Lia.
From Stdlib Require Import Floats Uint63.
Import ListNotations.

#[local] Set Warnings "-inexact-float".

(** ** Python values *)

(** A Python [str] is a sequence of Unicode code points; [len] counts them. *)
Definition str : Type := list N.

Definition len (s : str) : nat := List.length s.

(** String literals of the source are written as UTF-8 text; [py] decodes
    them to code points. *)
Fixpoint utf8_decode (bs : list N) (acc : N) (pending : nat) : str :=
  match bs with
  | [] => []
  | b :: bs' =>
      match pending with
      | O =>
          if (b <? 128)%N then b :: utf8_decode bs' 0%N 0
          else if (b <? 224)%N then utf8_decode bs' (b mod 32)%N 1
          else if (b <? 240)%N then utf8_decode bs' (b mod 16)%N 2
          else utf8_decode bs' (b mod 8)%N 3
      | S O => (acc * 64 + b mod 64)%N :: utf8_decode bs' 0%N 0
      | S k => utf8_decode bs' (acc * 64 + b mod 64)%N k
      end
  end.

Definition py (s : string) : str :=
  utf8_decode (List.map N_of_ascii (list_ascii_of_string s)) 0%N 0.

(** [a == b] on [str]. *)
Fixpoint str_eqb (a b : str) : bool :=
  match a, b with
  | [], [] => true
  | x :: a', y :: b' => (x =? y)%N && str_eqb a' b'
  | _, _ => false
  end.

(** [Py_UNICODE_ISSPACE]: the code points [str.strip()] removes. *)
Definition isspace (c : N) : bool :=
  ((9 <=? c) && (c <=? 13) || (28 <=? c) && (c <=? 32) || (c =? 133)
   || (c =? 160) || (c =? 5760) || (8192 <=? c) && (c <=? 8202)
   || (c =? 8232) || (c =? 8233) || (c =? 8239) || (c =? 8287)
   || (c =? 12288))%N.

Fixpoint lstrip (s : str) : str :=
  match s with
  | [] => []
  | c :: s' => if isspace c then lstrip s' else s
  end.

Definition rstrip (s : str) : str := rev (lstrip (rev s)).

Definition strip (s : str) : str := rstrip (lstrip s).

(** Truth value of a [str] ([not s] is [negb (truthy s)]). *)
Definition truthy (s : str) : bool :=
  match s with
  | [] => false
  | _ :: _ => true
  end.

(** Truth value of a value that is [None] or a [str]. *)
Definition truthy_opt (v : option str) : bool :=
  match v with
  | None => false
  | Some s => truthy s
  end.

(** ** Python floats: IEEE 754 binary64 *)

Open Scope float_scope.

(** [float(n)] for the result of [len]: a [Py_ssize_t], below [2^63]. *)
Definition float_of_len (n : nat) : float :=
  of_uint63 (Uint63.of_Z (Z.of_nat n)).

(** The builtin [min(a, b)] on two floats: [b] when [b < a], else [a]. *)
Definition py_min (a b : float) : float := if b <? a then b else a.

(** ** Exceptions, collaborators and effects *)

(** The subclasses of [Exception] a request can meet: FastAPI's
    [HTTPException] and everything a third-party library raises. *)
Inductive exn : Type :=
| HTTPException (status_code : Z) (detail : string)
| LibraryError (what : string).

Inductive outcome (A : Type) : Type :=
| Returns (a : A)
| Raises (e : exn).
Arguments Returns {A} a.
Arguments Raises {A} e.

(** What a handler does to the outside world, in order. *)
Inductive event : Type :=
| Detect (text : str)
| Translate (source target text : str)
| LogError (prefix : string) (e : exn).

(** The two external services.  [detect] is [langdetect.detect];
    [translate source target text] is
    [GoogleTranslator(source=source, target=target).translate(text)],
    whose result may be an empty [str] or [None]. *)
Record collaborators : Type := {
  detect : str -> outcome str;
  translate : str -> str -> str -> outcome (option str)
}.

(** Computations: the events performed, then a value or a raised exception. *)
Definition M (A : Type) : Type := (list event * outcome A)%type.

Definition ret {A} (a : A) : M A := ([], Returns a).

Definition raise {A} (e : exn) : M A := ([], Raises e).

Definition bind {A B} (m : M A) (k : A -> M B) : M B :=
  match m with
  | (l, Returns a) => let (l', r) := k a in (l ++ l', r)
  | (l, Raises e) => (l, Raises e)
  end.

(** [try: m  except Exception as e: h e] *)
Definition try_except {A} (m : M A) (h : exn -> M A) : M A :=
  match m with
  | (l, Raises e) => let (l', r) := h e in (l ++ l', r)
  | (l, Returns a) => (l, Returns a)
  end.

Definition call_detect (ext : collaborators) (text : str) : M str :=
  ([Detect text], detect ext text).

Definition call_translate (ext : collaborators) (source target text : str)
  : M (option str) :=
  ([Translate source target text], translate ext source target text).

Definition logger_error (prefix : string) (e : exn) : M unit :=
  ([LogError prefix e], Returns tt).

Declare Scope py_scope.
Delimit Scope py_scope with py_m.
Notation "x <- c ;; k" := (bind c (fun x => k))
  (at level 100, c at next level, right associativity) : py_scope.
Notation "c ;;; k" := (bind c (fun _ => k))
  (at level 100, right associativity) : py_scope.
Open Scope py_scope.

Definition events {A} (m : M A) : list event := fst m.
Definition result {A} (m : M A) : outcome A := snd m.

Definition is_translate (ev : event) : bool :=
  match ev with
  | Translate _ _ _ => true
  | _ => false
  end.

Definition is_external (ev : event) : bool :=
  match ev with
  | Detect _ | Translate _ _ _ => true
  | LogError _ _ => false
  end.

(** Number of calls made to the Translator. *)
Definition translator_calls {A} (m : M A) : nat :=
  List.length (filter is_translate (events m)).

(** Number of calls made to either collaborator. *)
Definition external_calls {A} (m : M A) : nat :=
  List.length (filter is_external (events m)).

(** ** Pydantic models (the same classes in both application files) *)

Record TranslationRequest : Type := {
  text : str;
  req_target_language : str
}.

Record TranslationResponse : Type := {
  original_text : str;
  detected_language : str;
  confidence_level : float;
  translated_text : str;
  target_language : str
}.

Record LanguageInfo : Type := {
  code : str;
  name : str;
  native_name : str
}.

(** A value of the [SUPPORTED_LANGUAGES] dict. *)
Record language_names : Type := {
  names_name : str;
  names_native_name : str
}.

(** A dict literal, in insertion order. *)
Definition entry (k n nn : string) : str * language_names :=
  (py k, {| names_name := py n; names_native_name := py nn |}).

(** [key in d] *)
Definition dict_contains {V} (key : str) (d : list (str * V)) : bool :=
  existsb (fun kv => str_eqb key (fst kv)) d.

(** ** [src/app/main.py] *)

Module Main.

(** Supported languages mapping *)
Definition SUPPORTED_LANGUAGES : list (str * language_names) := [
    entry "af" "Afrikaans" "Afrikaans";
    entry "sq" "Albanian" "Shqip";
    entry "am" "Amharic" "አማርኛ";
    entry "ar" "Arabic" "العربية";
    entry "hy" "Armenian" "Հայերեն";
    entry "az" "Azerbaijani" "Azərbaycan";
    entry "eu" "Basque" "Euskara";
    entry "be" "Belarusian" "Беларуская";
    entry "bn" "Bengali" "বাংলা";
    entry "bs" "Bosnian" "Bosanski";
    entry "bg" "Bulgarian" "Български";
    entry "ca" "Catalan" "Català";
    entry "ceb" "Cebuano" "Cebuano";
    entry "zh" "Chinese (Simplified)" "中文 (简体)";
    entry "zh-TW" "Chinese (Traditional)" "中文 (繁體)";
    entry "co" "Corsican" "Corsu";
    entry "hr" "Croatian" "Hrvatski";
    entry "cs" "Czech" "Čeština";
    entry "da" "Danish" "Dansk";
    entry "nl" "Dutch" "Nederlands";
    entry "en" "English" "English";
    entry "eo" "Esperanto" "Esperanto";
    entry "et" "Estonian" "Eesti";
    entry "fi" "Finnish" "Suomi";
    entry "fr" "French" "Français";
    entry "fy" "Frisian" "Frysk";
    entry "gl" "Galician" "Galego";
    entry "ka" "Georgian" "ქართული";
    entry "de" "German" "Deutsch";
    entry "el" "Greek" "Ελληνικά";
    entry "gu" "Gujarati" "ગુજરાતી";
    entry "ht" "Haitian Creole" "Kreyòl Ayisyen";
    entry "ha" "Hausa" "Hausa";
    entry "haw" "Hawaiian" "ʻŌlelo Hawaiʻi";
    entry "he" "Hebrew" "עברית";
    entry "hi" "Hindi" "हिन्दी";
    entry "hmn" "Hmong" "Hmong";
    entry "hu" "Hungarian" "Magyar";
    entry "is" "Icelandic" "Íslenska";
    entry "ig" "Igbo" "Igbo";
    entry "id" "Indonesian" "Indonesia";
    entry "ga" "Irish" "Gaeilge";
    entry "it" "Italian" "Italiano";
    entry "ja" "Japanese" "日本語";
    entry "jv" "Javanese" "Basa Jawa";
    entry "kn" "Kannada" "ಕನ್ನಡ";
    entry "kk" "Kazakh" "Қазақ";
    entry "km" "Khmer" "ខ្មែរ";
    entry "ko" "Korean" "한국어";
    entry "ku" "Kurdish" "Kurdî";
    entry "ky" "Kyrgyz" "Кыргызча";
    entry "lo" "Lao" "ລາວ";
    entry "la" "Latin" "Latina";
    entry "lv" "Latvian" "Latviešu";
    entry "lt" "Lithuanian" "Lietuvių";
    entry "lb" "Luxembourgish" "Lëtzebuergesch";
    entry "mk" "Macedonian" "Македонски";
    entry "mg" "Malagasy" "Malagasy";
    entry "ms" "Malay" "Bahasa Melayu";
    entry "ml" "Malayalam" "മലയാളം";
    entry "mt" "Maltese" "Malti";
    entry "mi" "Maori" "Māori";
    entry "mr" "Marathi" "मराठी";
    entry "mn" "Mongolian" "Монгол";
    entry "my" "Myanmar (Burmese)" "မြန်မာ (ဗမာ)";
    entry "ne" "Nepali" "नेपाली";
    entry "no" "Norwegian" "Norsk";
    entry "ny" "Nyanja (Chichewa)" "Nyanja (Chichewa)";
    entry "or" "Odia (Oriya)" "ଓଡ଼ିଆ (ଓଡ଼ିଆ)";
    entry "ps" "Pashto" "پښتو";
    entry "fa" "Persian" "فارسی";
    entry "pl" "Polish" "Polski";
    entry "pt" "Portuguese" "Português";
    entry "pa" "Punjabi" "ਪੰਜਾਬੀ";
    entry "ro" "Romanian" "Română";
    entry "ru" "Russian" "Русский";
    entry "sm" "Samoan" "Gagana Samoa";
    entry "gd" "Scots Gaelic" "Gàidhlig";
    entry "sr" "Serbian" "Српски";
    entry "st" "Sesotho" "Sesotho";
    entry "sn" "Shona" "Shona";
    entry "sd" "Sindhi" "سنڌي";
    entry "si" "Sinhala (Sinhalese)" "සිංහල";
    entry "sk" "Slovak" "Slovenčina";
    entry "sl" "Slovenian" "Slovenščina";
    entry "so" "Somali" "Soomaali";
    entry "es" "Spanish" "Español";
    entry "su" "Sundanese" "Basa Sunda";
    entry "sw" "Swahili" "Kiswahili";
    entry "sv" "Swedish" "Svenska";
    entry "tg" "Tajik" "Тоҷикӣ";
    entry "ta" "Tamil" "தமிழ்";
    entry "tt" "Tatar" "Татар";
    entry "te" "Telugu" "తెలుగు";
    entry "th" "Thai" "ไทย";
    entry "tr" "Turkish" "Türkçe";
    entry "tk" "Turkmen" "Türkmen";
    entry "ak" "Twi" "Twi";
    entry "uk" "Ukrainian" "Українська";
    entry "ur" "Urdu" "اردو";
    entry "ug" "Uyghur" "ئۇيغۇرچە";
    entry "uz" "Uzbek" "O'zbek";
    entry "ve" "Venda" "Tshivenda";
    entry "vi" "Vietnamese" "Tiếng Việt";
    entry "cy" "Welsh" "Cymraeg";
    entry "xh" "Xhosa" "isiXhosa";
    entry "yi" "Yiddish" "יידיש";
    entry "yo" "Yoruba" "Yorùbá";
    entry "zu" "Zulu" "isiZulu"
].

Definition detect_language_with_confidence (ext : collaborators) (text : str)
  : M (str * float) :=
  try_except
    (detected_lang <- call_detect ext text ;;
     let confidence := py_min 0.95 (0.7 + (float_of_len (len text) * 0.01)) in
     ret (detected_lang, confidence))
    (fun e =>
       logger_error "Language detection failed" e ;;;
       ret (py "en", 0.5)).

(** [GET /api/languages] *)
Definition get_supported_languages : list LanguageInfo :=
  fold_left
    (fun languages item =>
       let '(code, info) := item in
       languages ++ [ {| code := code;
                         name := names_name info;
                         native_name := names_native_name info |} ])
    SUPPORTED_LANGUAGES [].

(** [POST /api/translate] *)
Definition translate_text (ext : collaborators) (request : TranslationRequest)
  : M TranslationResponse :=
  try_except
    (if negb (truthy (strip (text request))) then
       raise (HTTPException 400 "Text cannot be empty")
     else if negb (dict_contains (req_target_language request) SUPPORTED_LANGUAGES) then
       raise (HTTPException 400 "Target language not supported")
     else
       dc <- detect_language_with_confidence ext (text request) ;;
       let '(detected_lang, confidence) := dc in
       if str_eqb detected_lang (req_target_language request) then
         ret {| original_text := text request;
                detected_language := detected_lang;
                confidence_level := confidence;
                translated_text := text request;
                target_language := req_target_language request |}
       else
         try_except
           (translated <- call_translate ext detected_lang
                            (req_target_language request) (text request) ;;
            match translated with
            | Some s =>
                if negb (truthy s) then
                  raise (HTTPException 500 "Translation failed")
                else
                  ret {| original_text := text request;
                         detected_language := detected_lang;
                         confidence_level := confidence;
                         translated_text := s;
                         target_language := req_target_language request |}
            | None => raise (HTTPException 500 "Translation failed")
            end)
           (fun e =>
              logger_error "Translation error" e ;;;
              raise (HTTPException 500 "Translation service error")))
    (fun e =>
       match e with
       | HTTPException _ _ => raise e
       | _ =>
           logger_error "Unexpected error" e ;;;
           raise (HTTPException 500 "Internal server error")
       end).

End Main.

(** ** [src/app/main_vercel.py] *)

Module MainVercel.

(** Supported languages mapping *)
Definition SUPPORTED_LANGUAGES : list (str * language_names) := [
    entry "af" "Afrikaans" "Afrikaans";
    entry "sq" "Albanian" "Shqip";
    entry "am" "Amharic" "አማርኛ";
    entry "ar" "Arabic" "العربية";
    entry "hy" "Armenian" "Հայերեն";
    entry "az" "Azerbaijani" "Azərbaycan";
    entry "eu" "Basque" "Euskara";
    entry "be" "Belarusian" "Беларуская";
    entry "bn" "Bengali" "বাংলা";
    entry "bs" "Bosnian" "Bosanski";
    entry "bg" "Bulgarian" "Български";
    entry "ca" "Catalan" "Català";
    entry "ceb" "Cebuano" "Cebuano";
    entry "zh" "Chinese (Simplified)" "中文 (简体)";
    entry "zh-TW" "Chinese (Traditional)" "中文 (繁體)";
    entry "co" "Corsican" "Corsu";
    entry "hr" "Croatian" "Hrvatski";
    entry "cs" "Czech" "Čeština";
    entry "da" "Danish" "Dansk";
    entry "nl" "Dutch" "Nederlands";
    entry "en" "English" "English";
    entry "eo" "Esperanto" "Esperanto";
    entry "et" "Estonian" "Eesti";
    entry "fi" "Finnish" "Suomi";
    entry "fr" "French" "Français";
    entry "fy" "Frisian" "Frysk";
    entry "gl" "Galician" "Galego";
    entry "ka" "Georgian" "ქართული";
    entry "de" "German" "Deutsch";
    entry "el" "Greek" "Ελληνικά";
    entry "gu" "Gujarati" "ગુજરાતી";
    entry "ht" "Haitian Creole" "Kreyòl Ayisyen";
    entry "ha" "Hausa" "Hausa";
    entry "haw" "Hawaiian" "ʻŌlelo Hawaiʻi";
    entry "he" "Hebrew" "עברית";
    entry "hi" "Hindi" "हिन्दी";
    entry "hmn" "Hmong" "Hmong";
    entry "hu" "Hungarian" "Magyar";
    entry "is" "Icelandic" "Íslenska";
    entry "ig" "Igbo" "Igbo";
    entry "id" "Indonesian" "Indonesia";
    entry "ga" "Irish" "Gaeilge";
    entry "it" "Italian" "Italiano";
    entry "ja" "Japanese" "日本語";
    entry "jv" "Javanese" "Basa Jawa";
    entry "kn" "Kannada" "ಕನ್ನಡ";
    entry "kk" "Kazakh" "Қазақ";
    entry "km" "Khmer" "ខ្មែរ";
    entry "ko" "Korean" "한국어";
    entry "ku" "Kurdish" "Kurdî";
    entry "ky" "Kyrgyz" "Кыргызча";
    entry "lo" "Lao" "ລາວ";
    entry "la" "Latin" "Latina";
    entry "lv" "Latvian" "Latviešu";
    entry "lt" "Lithuanian" "Lietuvių";
    entry "lb" "Luxembourgish" "Lëtzebuergesch";
    entry "mk" "Macedonian" "Македонски";
    entry "mg" "Malagasy" "Malagasy";
    entry "ms" "Malay" "Bahasa Melayu";
    entry "ml" "Malayalam" "മലയാളം";
    entry "mt" "Maltese" "Malti";
    entry "mi" "Maori" "Māori";
    entry "mr" "Marathi" "मराठी";
    entry "mn" "Mongolian" "Монгол";
    entry "my" "Myanmar (Burmese)" "မြန်မာ (ဗမာ)";
    entry "ne" "Nepali" "नेपाली";
    entry "no" "Norwegian" "Norsk";
    entry "ny" "Nyanja (Chichewa)" "Nyanja (Chichewa)";
    entry "or" "Odia (Oriya)" "ଓଡ଼ିଆ (ଓଡ଼ିଆ)";
    entry "ps" "Pashto" "پښتو";
    entry "fa" "Persian" "فارسی";
    entry "pl" "Polish" "Polski";
    entry "pt" "Portuguese" "Português";
    entry "pa" "Punjabi" "ਪੰਜਾਬੀ";
    entry "ro" "Romanian" "Română";
    entry "ru" "Russian" "Русский";
    entry "sm" "Samoan" "Gagana Samoa";
    entry "gd" "Scots Gaelic" "Gàidhlig";
    entry "sr" "Serbian" "Српски";
    entry "st" "Sesotho" "Sesotho";
    entry "sn" "Shona" "Shona";
    entry "sd" "Sindhi" "سنڌي";
    entry "si" "Sinhala (Sinhalese)" "සිංහල";
    entry "sk" "Slovak" "Slovenčina";
    entry "sl" "Slovenian" "Slovenščina";
    entry "so" "Somali" "Soomaali";
    entry "es" "Spanish" "Español";
    entry "su" "Sundanese" "Basa Sunda";
    entry "sw" "Swahili" "Kiswahili";
    entry "sv" "Swedish" "Svenska";
    entry "tg" "Tajik" "Тоҷикӣ";
    entry "ta" "Tamil" "தமிழ்";
    entry "tt" "Tatar" "Татар";
    entry "te" "Telugu" "తెలుగు";
    entry "th" "Thai" "ไทย";
    entry "tr" "Turkish" "Türkçe";
    entry "tk" "Turkmen" "Türkmen";
    entry "ak" "Twi" "Twi";
    entry "uk" "Ukrainian" "Українська";
    entry "ur" "Urdu" "اردو";
    entry "ug" "Uyghur" "ئۇيغۇرچە";
    entry "uz" "Uzbek" "O'zbek";
    entry "ve" "Venda" "Tshivenda";
    entry "vi" "Vietnamese" "Tiếng Việt";
    entry "cy" "Welsh" "Cymraeg";
    entry "xh" "Xhosa" "isiXhosa";
    entry "yi" "Yiddish" "יידיש";
    entry "yo" "Yoruba" "Yorùbá";
    entry "zu" "Zulu" "isiZulu"
].

Definition detect_language_with_confidence (ext : collaborators) (text : str)
  : M (str * float) :=
  try_except
    (detected_lang <- call_detect ext text ;;
     let confidence := py_min 0.95 (0.7 + (float_of_len (len text) * 0.01)) in
     ret (detected_lang, confidence))
    (fun e =>
       logger_error "Language detection failed" e ;;;
       ret (py "en", 0.5)).

(** [GET /api/languages] *)
Definition get_supported_languages : list LanguageInfo :=
  fold_left
    (fun languages item =>
       let '(code, info) := item in
       languages ++ [ {| code := code;
                         name := names_name info;
                         native_name := names_native_name info |} ])
    SUPPORTED_LANGUAGES [].

(** [POST /api/translate] *)
Definition translate_text (ext : collaborators) (request : TranslationRequest)
  : M TranslationResponse :=
  try_except
    (if negb (truthy (strip (text request))) then
       raise (HTTPException 400 "Text cannot be empty")
     else if negb (dict_contains (req_target_language request) SUPPORTED_LANGUAGES) then
       raise (HTTPException 400 "Target language not supported")
     else
       dc <- detect_language_with_confidence ext (text request) ;;
       let '(detected_lang, confidence) := dc in
       if str_eqb detected_lang (req_target_language request) then
         ret {| original_text := text request;
                detected_language := detected_lang;
                confidence_level := confidence;
                translated_text := text request;
                target_language := req_target_language request |}
       else
         try_except
           (translated <- call_translate ext detected_lang
                            (req_target_language request) (text request) ;;
            match translated with
            | Some s =>
                if negb (truthy s) then
                  raise (HTTPException 500 "Translation failed")
                else
                  ret {| original_text := text request;
                         detected_language := detected_lang;
                         confidence_level := confidence;
                         translated_text := s;
                         target_language := req_target_language request |}
            | None => raise (HTTPException 500 "Translation failed")
            end)
           (fun e =>
              logger_error "Translation error" e ;;;
              raise (HTTPException 500 "Translation service error")))
    (fun e =>
       match e with
       | HTTPException _ _ => raise e
       | _ =>
           logger_error "Unexpected error" e ;;;
           raise (HTTPException 500 "Internal server error")
       end).

End MainVercel.

(** ** Auxiliary definitions used by the statements and proofs *)

(** The confidence formula as the specification writes it:
    [min(0.95, 0.7 + 0.01 * length(text))]. *)
Definition spec_confidence (n : nat) : float :=
  py_min 0.95 (0.7 + 0.01 * float_of_len n).

(** The confidence formula as the code computes it, by length. *)
Definition code_confidence (n : nat) : float :=
  py_min 0.95 (0.7 + float_of_len n * 0.01).

(** Checks run on the lengths below 64. *)
Definition bounds_below (k : nat) : bool :=
  forallb (fun n => (0.7 <=? code_confidence n)
                    && (code_confidence n <=? 0.95)) (seq 0 k).

Definition saturated_between (lo k : nat) : bool :=
  forallb (fun n => Leibniz.eqb (code_confidence n) 0.95) (seq lo k).

Definition monotone_below (k : nat) : bool :=
  forallb (fun n =>
             forallb (fun m => code_confidence n <=? code_confidence m)
               (seq n (k - n)))
    (seq 0 k).

(** A positive binary64 value that is infinite or normal with exponent at
    least [k]. *)
Definition big_float (k : Z) (x : spec_float) : Prop :=
  x = S754_infinity false
  \/ exists m e, x = S754_finite false m e
                 /\ Zpos (digits2_pos m) = 53%Z /\ (k <= e)%Z.

(** [a < b] on [str]: lexicographic on code points. *)
Fixpoint str_ltb (a b : str) : bool :=
  match a, b with
  | _, [] => false
  | [], _ :: _ => true
  | x :: a', y :: b' => (x <? y)%N || ((x =? y)%N && str_ltb a' b')
  end.

(** A list of [str] in alphabetical order. *)
Fixpoint alphabetical (l : list str) : bool :=
  match l with
  | a :: (b :: _) as tl => negb (str_ltb b a) && alphabetical tl
  | _ => true
  end.

(** No key occurs twice. *)
Fixpoint distinct (l : list str) : bool :=
  match l with
  | [] => true
  | a :: tl => negb (existsb (str_eqb a) tl) && distinct tl
  end.

(** Deterministic stand-ins for the two services. *)
Definition stub (lang : outcome str) (out : outcome (option str))
  : collaborators :=
  {| detect := fun _ => lang; translate := fun _ _ _ => out |}.

(** ** Further definitions used by the properties of the handlers *)

Definition is_detect (ev : event) : bool :=
  match ev with
  | Detect _ => true
  | _ => false
  end.

(** Number of calls made to the Language Detector. *)
Definition detector_calls {A} (m : M A) : nat :=
  List.length (filter is_detect (events m)).

(** Two outcomes that differ at most in which exception was raised. *)
Definition same_up_to_exn {A} (o1 o2 : outcome A) : Prop :=
  match o1, o2 with
  | Returns a, Returns b => a = b
  | Raises _, Raises _ => True
  | _, _ => False
  end.

(** Check run on the lengths up to [k]: the confidence grows strictly. *)
Definition strictly_increasing_upto (k : nat) : bool :=
  forallb (fun n =>
             forallb (fun m => code_confidence n <? code_confidence m)
               (seq (S n) (k - n)))
    (seq 0 k).

(** Check run on the lengths below [k]: the confidence is at least 0.5. *)
Definition above_half_below (k : nat) : bool :=
  forallb (fun n => 0.5 <=? code_confidence n) (seq 0 k).

(** ** The HTTP boundary of [src/app/main.py] *)

(** [GET /api/health]: the dict [health_check] returns. *)
Definition health_check : list (string * string) :=
  [("status", "healthy"); ("service", "translation-engine")]%string.

(** The JSON bodies the application sends. *)
Inductive json : Type :=
| JHealth (d : list (string * string))
| JLanguages (l : list LanguageInfo)
| JTranslation (r : TranslationResponse)
| JDetail (detail : string).

Record http_response : Type := {
  status_code : Z;
  json_body : json
}.

(** How FastAPI answers [POST /api/translate]: status 200 with the returned
    model, or the status and detail of the [HTTPException] raised; any other
    exception leaving a handler is a plain 500. *)
Definition respond (m : M TranslationResponse) : http_response :=
  match result m with
  | Returns r => {| status_code := 200; json_body := JTranslation r |}
  | Raises (HTTPException s d) => {| status_code := s; json_body := JDetail d |}
  | Raises (LibraryError _) =>
      {| status_code := 500; json_body := JDetail "Internal Server Error" |}
  end.

(** What a script gets from [requests.get] and [requests.post] on the three
    API routes; a call may raise (no connection). *)
Record http_client : Type := {
  get_health : outcome http_response;
  get_languages : outcome http_response;
  post_translate : TranslationRequest -> outcome http_response
}.

(** The application of [main.py] reached without transport failures. *)
Definition app_client (ext : collaborators) : http_client :=
  {| get_health :=
       Returns {| status_code := 200; json_body := JHealth health_check |};
     get_languages :=
       Returns {| status_code := 200;
                  json_body := JLanguages Main.get_supported_languages |};
     post_translate :=
       fun request => Returns (respond (Main.translate_text ext request)) |}.

(** ** [src/test_app.py]

    The value each test function returns; console output and the pauses
    between requests are left out. *)

Module TestApp.

Definition test_health_check (c : http_client) : bool :=
  match get_health c with
  | Returns response =>
      if (status_code response =? 200)%Z then true else false
  | Raises _ => false
  end.

(** On status 200 the body is indexed as a list of records with a [name]. *)
Definition test_get_languages (c : http_client) : bool :=
  match get_languages c with
  | Returns response =>
      if (status_code response =? 200)%Z then
        match json_body response with
        | JLanguages _ => true
        | _ => false
        end
      else false
  | Raises _ => false
  end.




Definition test_error_handling (c : http_client) : bool :=
  match post_translate c
          {| text := py ""; req_target_language := py "es" |} with
  | Returns response =>
      if (status_code response =? 400)%Z then
        match post_translate c
                {| text := py "Hello";
                   req_target_language := py "invalid_lang" |} with
        | Returns response' =>
            if (status_code response' =? 400)%Z then true else false
        | Raises _ => false
        end
      else false
  | Raises _ => false
  end.




End TestApp.

(** * Properties *)

(** ** Strings *)

Lemma truthy_false_iff (s : str) : truthy s = false <-> s = [].
Proof. destruct s; simpl; split; congruence. Qed.

Lemma truthy_true_iff (s : str) : truthy s = true <-> s <> [].
Proof. destruct s; simpl; split; congruence. Qed.

Lemma str_eqb_eq (a b : str) : str_eqb a b = true <-> a = b.
Proof.
  revert b; induction a as [|x a IH]; intros [|y b]; simpl;
    try (split; congruence).
  rewrite andb_true_iff, N.eqb_eq, IH. split.
  - intros [Hx Ha]; subst; reflexivity.
  - intros H; injection H; auto.
Qed.

Lemma str_eqb_refl (a : str) : str_eqb a a = true.
Proof. apply str_eqb_eq; reflexivity. Qed.

Lemma str_eqb_neq (a b : str) : a <> b -> str_eqb a b = false.
Proof.
  intros H; destruct (str_eqb a b) eqn:E; [|reflexivity].
  apply str_eqb_eq in E; contradiction.
Qed.

(** ** Binary64 rounding

    Facts on the reference implementation of IEEE 754 arithmetic
    ([SpecFloat]) that the primitive floats are specified by: how rounding
    shapes a result that has at least 53 significant bits. *)

Section BinaryRounding.
Open Scope Z_scope.

Lemma digits2_pos_bounds (p : positive) :
  2 ^ (Zpos (digits2_pos p) - 1) <= Zpos p < 2 ^ Zpos (digits2_pos p).
Proof.
  induction p as [p IH|p IH|]; cbn [digits2_pos];
    [rewrite (Pos2Z.inj_xI p) | rewrite (Pos2Z.inj_xO p)
    | change (1 <= 1 < 2); lia];
    rewrite Pos2Z.inj_succ;
    replace (Z.succ (Zpos (digits2_pos p)) - 1)
      with (Z.succ (Zpos (digits2_pos p) - 1)) by lia;
    rewrite !Z.pow_succ_r by lia; lia.
Qed.

Lemma digits2_pos_unique (p : positive) (k : Z) :
  2 ^ (k - 1) <= Zpos p < 2 ^ k -> Zpos (digits2_pos p) = k.
Proof.
  intros [Hlo Hhi].
  pose proof (digits2_pos_bounds p) as [Dlo Dhi].
  set (d := Zpos (digits2_pos p)) in *.
  assert (0 < k).
  { destruct (Z.lt_trichotomy 0 k) as [?|[<-|Hneg]]; [assumption | cbn in Hhi; lia |].
    rewrite (Z.pow_neg_r 2 k) in Hhi by assumption. lia. }
  destruct (Z.lt_trichotomy d k) as [Hlt|[Heq|Hgt]]; [|assumption|].
  - assert (2 ^ d <= 2 ^ (k - 1)) by (apply Z.pow_le_mono_r; lia). lia.
  - assert (2 ^ k <= 2 ^ (d - 1)) by (apply Z.pow_le_mono_r; lia). lia.
Qed.

Lemma shr_1_div2 (mrs : shr_record) :
  0 <= shr_m mrs -> shr_m (shr_1 mrs) = shr_m mrs / 2.
Proof.
  destruct mrs as [[|[p|p|]|p] r s]; cbn [shr_m shr_1]; intros H;
    try reflexivity; try lia.
  - apply Z.div_unique with (r := 1); lia.
  - apply Z.div_unique with (r := 0); lia.
Qed.

Lemma iter_shr_1_div (p : positive) :
  forall mrs, 0 <= shr_m mrs ->
              shr_m (iter_pos shr_1 p mrs) = shr_m mrs / 2 ^ Zpos p.
Proof.
  assert (P2 : forall q, 0 < 2 ^ Zpos q) by (intros; apply Z.pow_pos_nonneg; lia).
  induction p as [p IH|p IH|]; intros mrs H; cbn [iter_pos].
  - assert (H1 : 0 <= shr_m (shr_1 mrs))
      by (rewrite shr_1_div2 by assumption; apply Z.div_pos; lia).
    assert (H2 : 0 <= shr_m (iter_pos shr_1 p (shr_1 mrs)))
      by (rewrite IH by assumption; apply Z.div_pos; [assumption | apply P2]).
    rewrite (IH _ H2), (IH _ H1), shr_1_div2 by assumption.
    pose proof (P2 p).
    rewrite !Z.div_div by lia.
    f_equal. rewrite (Pos2Z.inj_xI p).
    replace (2 * Zpos p + 1) with (1 + Zpos p + Zpos p) by lia.
    rewrite !Z.pow_add_r by lia. change (2 ^ 1) with 2. ring.
  - assert (H2 : 0 <= shr_m (iter_pos shr_1 p mrs))
      by (rewrite IH by assumption; apply Z.div_pos; [assumption | apply P2]).
    rewrite (IH _ H2), (IH _ H).
    pose proof (P2 p).
    rewrite !Z.div_div by lia.
    f_equal. rewrite (Pos2Z.inj_xO p).
    replace (2 * Zpos p) with (Zpos p + Zpos p) by lia.
    rewrite !Z.pow_add_r by lia. ring.
  - rewrite shr_1_div2 by assumption. reflexivity.
Qed.

Lemma fexp_normal (k : Z) : -1074 <= k - 53 -> fexp prec emax k = k - 53.
Proof. intros H; unfold fexp, SpecFloat.emin, prec, emax; lia. Qed.

(** First shift of [binary_round_aux]: at least 53 digits are brought down
    to exactly 53. *)
Lemma shr_fexp_truncates (mx : positive) (ex : Z) :
  53 <= Zpos (digits2_pos mx) ->
  -1074 <= Zpos (digits2_pos mx) + ex - 53 ->
  exists mrs,
    shr_fexp prec emax (Zpos mx) ex loc_Exact
    = (mrs, Zpos (digits2_pos mx) + ex - 53)
    /\ 2 ^ 52 <= shr_m mrs < 2 ^ 53.
Proof.
  intros Hd He. unfold shr_fexp, Zdigits2.
  rewrite fexp_normal by lia.
  pose proof (digits2_pos_bounds mx) as B.
  set (d := Zpos (digits2_pos mx)) in *.
  cbn [shr_record_of_loc].
  destruct (d + ex - 53 - ex) as [|p|p] eqn:Hn; cbn [shr].
  - exists {| shr_m := Zpos mx; shr_r := false; shr_s := false |}.
    cbn [shr_m]. assert (d = 53) by lia.
    split; [f_equal; lia|]. replace 52 with (d - 1) by lia.
    replace 53 with d by lia. exact B.
  - exists (iter_pos shr_1 p {| shr_m := Zpos mx; shr_r := false; shr_s := false |}).
    split; [f_equal; lia|].
    rewrite iter_shr_1_div by (cbn; lia). cbn [shr_m].
    assert (Hp : Zpos p = d - 53) by lia.
    assert (0 < 2 ^ Zpos p) by (apply Z.pow_pos_nonneg; lia).
    assert (E1 : 2 ^ (d - 1) = 2 ^ 52 * 2 ^ Zpos p)
      by (rewrite <- Z.pow_add_r by lia; f_equal; lia).
    assert (E2 : 2 ^ d = 2 ^ 53 * 2 ^ Zpos p)
      by (rewrite <- Z.pow_add_r by lia; f_equal; lia).
    split.
    + apply Z.div_le_lower_bound; [assumption|]. lia.
    + apply Z.div_lt_upper_bound; [assumption|]. lia.
  - lia.
Qed.

Lemma round_nearest_even_range (m : Z) (l : location) :
  m <= round_nearest_even m l <= m + 1.
Proof.
  destruct l as [|[| |]]; cbn [round_nearest_even]; try lia.
  destruct (Z.even m); lia.
Qed.

(** Second shift of [binary_round_aux] and packing of the result. *)
Lemma round_pack_big (m e : Z) :
  2 ^ 52 <= m <= 2 ^ 53 -> -1074 <= e ->
  big_float e
    (let '(mrs, e') := shr_fexp prec emax m e loc_Exact in
     match shr_m mrs with
     | Z0 => S754_zero false
     | Zpos p => if e' <=? emax - prec then S754_finite false p e'
                 else S754_infinity false
     | Zneg _ => S754_nan
     end).
Proof.
  intros Hm He.
  destruct (Z.eq_dec m (2 ^ 53)) as [->|Hne].
  - unfold shr_fexp. change (Zdigits2 (2 ^ 53)) with 54.
    rewrite fexp_normal by lia.
    replace (54 + e - 53 - e) with 1 by lia.
    cbn [shr shr_record_of_loc iter_pos shr_1 shr_m].
    change (2 ^ 53) with (Zpos (xO (Pos.pow 2 52))).
    cbn [shr_1 shr_m].
    destruct (e + 1 <=? emax - prec); [right|left; reflexivity].
    do 2 eexists; split; [reflexivity|]. split; [reflexivity | lia].
  - destruct m as [|p|p]; try (exfalso; lia).
    assert (D : Zpos (digits2_pos p) = 53)
      by (apply digits2_pos_unique; change (53 - 1) with 52; lia).
    unfold shr_fexp, Zdigits2. rewrite D.
    rewrite fexp_normal by lia.
    replace (53 + e - 53 - e) with 0 by lia.
    cbn [shr shr_record_of_loc shr_m].
    destruct (e <=? emax - prec); [right|left; reflexivity].
    do 2 eexists; split; [reflexivity|]. split; [exact D | lia].
Qed.

Lemma binary_round_aux_big (mx : positive) (ex : Z) :
  53 <= Zpos (digits2_pos mx) ->
  -1074 <= Zpos (digits2_pos mx) + ex - 53 ->
  big_float (Zpos (digits2_pos mx) + ex - 53)
    (binary_round_aux prec emax false (Zpos mx) ex loc_Exact).
Proof.
  intros Hd He.
  destruct (shr_fexp_truncates mx ex Hd He) as (mrs & Hs & Hm).
  unfold binary_round_aux. rewrite Hs.
  apply round_pack_big; [|assumption].
  pose proof (round_nearest_even_range (shr_m mrs) (loc_of_shr_record mrs)).
  lia.
Qed.

Lemma big_float_weaken (k k' : Z) (x : spec_float) :
  k' <= k -> big_float k x -> big_float k' x.
Proof.
  intros Hk [->|(m & e & -> & D & He)]; [left; reflexivity|right].
  exists m, e; repeat split; [assumption | lia].
Qed.

Lemma iter_xO_pow2 (p k : positive) :
  Zpos (Pos.iter xO p k) = Zpos p * 2 ^ Zpos k.
Proof.
  induction k as [|k IH] using Pos.peano_ind.
  - cbn [Pos.iter]. change (2 ^ 1) with 2. lia.
  - rewrite Pos.iter_succ, (Pos2Z.inj_xO (Pos.iter xO p k)), IH.
    rewrite Pos2Z.inj_succ, Z.pow_succ_r by lia. ring.
Qed.

Lemma digits2_pos_ge (p : positive) (k : Z) :
  2 ^ k <= Zpos p -> k + 1 <= Zpos (digits2_pos p).
Proof.
  intros H. pose proof (digits2_pos_bounds p) as [_ B].
  destruct (Z_lt_le_dec (Zpos (digits2_pos p)) (k + 1)) as [Hlt|]; [|assumption].
  assert (2 ^ Zpos (digits2_pos p) <= 2 ^ k) by (apply Z.pow_le_mono_r; lia).
  lia.
Qed.

(** Rounding a positive integer mantissa at any exponent in the normal
    range. *)
Lemma binary_round_big (s : positive) (e : Z) :
  -1074 <= Zpos (digits2_pos s) + e - 53 ->
  big_float (Zpos (digits2_pos s) + e - 53) (binary_round prec emax false s e).
Proof.
  intros He. unfold binary_round.
  rewrite fexp_normal by lia.
  pose proof (digits2_pos_bounds s) as B.
  set (d := Zpos (digits2_pos s)) in *.
  unfold shl_align.
  destruct (d + e - 53 - e) as [|k|k] eqn:Hn.
  - replace (d + e - 53) with (Zpos (digits2_pos s) + e - 53) by reflexivity.
    apply binary_round_aux_big; fold d; lia.
  - replace (d + e - 53) with (Zpos (digits2_pos s) + e - 53) by reflexivity.
    apply binary_round_aux_big; fold d; lia.
  - assert (Hk : Zpos k = 53 - d) by lia.
    assert (D : Zpos (digits2_pos (Pos.iter xO s k)) = 53).
    { apply digits2_pos_unique. rewrite iter_xO_pow2.
      assert (0 < 2 ^ Zpos k) by (apply Z.pow_pos_nonneg; lia).
      assert (E1 : 2 ^ (53 - 1) = 2 ^ (d - 1) * 2 ^ Zpos k)
        by (rewrite <- Z.pow_add_r by lia; f_equal; lia).
      assert (E2 : 2 ^ 53 = 2 ^ d * 2 ^ Zpos k)
        by (rewrite <- Z.pow_add_r by lia; f_equal; lia).
      rewrite E1, E2. nia. }
    replace (d + e - 53)
      with (Zpos (digits2_pos (Pos.iter xO s k)) + (d + e - 53) - 53) at 1
      by (rewrite D; lia).
    apply binary_round_aux_big; rewrite D; lia.
Qed.

Lemma SFmul_big (x y : spec_float) (kx ky : Z) :
  big_float kx x -> big_float ky y -> -1074 <= kx + ky + 52 ->
  big_float (kx + ky + 52) (SFmul prec emax x y).
Proof.
  intros [->|(mx & ex & -> & Dx & Hx)] [->|(my & ey & -> & Dy & Hy)] Hk;
    try (left; reflexivity).
  cbn [SFmul xorb].
  pose proof (digits2_pos_bounds mx) as Bx. rewrite Dx in Bx.
  pose proof (digits2_pos_bounds my) as By. rewrite Dy in By.
  assert (D : 105 <= Zpos (digits2_pos (mx * my))).
  { apply (digits2_pos_ge (mx * my) 104). rewrite Pos2Z.inj_mul.
    change (2 ^ 104) with (2 ^ 52 * 2 ^ 52).
    change (53 - 1) with 52 in *.
    apply Z.mul_le_mono_nonneg; lia. }
  apply big_float_weaken
    with (k := Zpos (digits2_pos (mx * my)) + (ex + ey) - 53); [lia|].
  apply binary_round_aux_big; lia.
Qed.

(** [0.7 + y] for [y] at least one half. *)
Lemma SFadd_0_7_big (y : spec_float) :
  big_float (-53) y ->
  big_float (-52)
    (SFadd prec emax (S754_finite false 6305039478318694 (-53)) y).
Proof.
  intros [->|(my & ey & -> & Dy & Hy)]; [left; reflexivity|].
  pose proof (digits2_pos_bounds my) as By. rewrite Dy in By.
  change (53 - 1) with 52 in By.
  cbn [SFadd cond_Zopp].
  rewrite Z.min_l by lia.
  unfold shl_align at 1. change (-53 - -53) with 0. cbn [fst].
  unfold shl_align.
  destruct (-53 - ey) as [|k|k] eqn:Hn; cbn [fst]; try lia.
  - change (Zpos 6305039478318694 + Zpos my)
      with (Zpos (6305039478318694 + my)).
    cbn [binary_normalize].
    assert (D : 54 <= Zpos (digits2_pos (6305039478318694 + my)))
      by (apply (digits2_pos_ge _ 53); lia).
    eapply big_float_weaken; [|apply binary_round_big]; lia.
  - change (Zpos 6305039478318694 + Zpos (Pos.iter xO my k))
      with (Zpos (6305039478318694 + Pos.iter xO my k)).
    cbn [binary_normalize].
    assert (D : 54 <= Zpos (digits2_pos (6305039478318694 + Pos.iter xO my k))).
    { apply (digits2_pos_ge _ 53). rewrite Pos2Z.inj_add, iter_xO_pow2.
      assert (0 < 2 ^ Zpos k) by (apply Z.pow_pos_nonneg; lia).
      nia. }
    eapply big_float_weaken; [|apply binary_round_big]; lia.
Qed.

Lemma big_float_not_below_0_95 (x : spec_float) :
  big_float (-52) x ->
  SFltb x (S754_finite false 8556839292003942 (-53)) = false.
Proof.
  intros [->|(m & e & -> & _ & He)]; [reflexivity|].
  unfold SFltb, SFcompare.
  destruct (Z.compare_spec e (-53)); [lia | lia | reflexivity].
Qed.

(** The conversion of a length of at least 64 to a float. *)
Lemma normalize_len_big (n : Z) :
  64 <= n -> big_float (-46) (binary_normalize prec emax n 0 false).
Proof.
  intros Hn. destruct n as [|p|p]; try lia.
  cbn [binary_normalize].
  assert (D : 7 <= Zpos (digits2_pos p))
    by (apply (digits2_pos_ge p 6); exact Hn).
  eapply big_float_weaken; [|apply binary_round_big]; lia.
Qed.

End BinaryRounding.

(** ** The confidence heuristic *)

Lemma Prim2SF_0_01 : Prim2SF 0.01 = S754_finite false 5764607523034235 (-59).
Proof. vm_compute; reflexivity. Qed.
Lemma Prim2SF_0_7 : Prim2SF 0.7 = S754_finite false 6305039478318694 (-53).
Proof. vm_compute; reflexivity. Qed.
Lemma Prim2SF_0_95 : Prim2SF 0.95 = S754_finite false 8556839292003942 (-53).
Proof. vm_compute; reflexivity. Qed.

Lemma Prim2SF_float_of_len (n : nat) :
  (Z.of_nat n < 2 ^ 63)%Z ->
  Prim2SF (float_of_len n) = binary_normalize prec emax (Z.of_nat n) 0 false.
Proof.
  intros H. unfold float_of_len. rewrite of_uint63_spec, of_Z_spec.
  rewrite Z.mod_small; [reflexivity|].
  change wB with (2 ^ 63)%Z. lia.
Qed.

Lemma confidence_saturates_from_64 (n : nat) :
  (64 <= Z.of_nat n < 2 ^ 63)%Z ->
  code_confidence n = 0.95.
Proof.
  intros [Hlo Hhi]. unfold code_confidence, py_min.
  rewrite FloatAxioms.ltb_spec, FloatAxioms.add_spec, FloatAxioms.mul_spec,
    Prim2SF_float_of_len by assumption.
  rewrite Prim2SF_0_01, Prim2SF_0_7, Prim2SF_0_95.
  rewrite big_float_not_below_0_95; [reflexivity|].
  apply SFadd_0_7_big.
  change (-53)%Z with (-46 + -59 + 52)%Z.
  apply SFmul_big; [apply normalize_len_big; assumption | | lia].
  right. do 2 eexists; split; [reflexivity|]. split; [reflexivity | lia].
Qed.

(** ** Language detection *)

Section Detection.
Variable ext : collaborators.
Variable t : str.

Lemma detect_success (lang : str) :
  detect ext t = Returns lang ->
  Main.detect_language_with_confidence ext t
  = ([Detect t],
     Returns (lang, py_min 0.95 (0.7 + float_of_len (len t) * 0.01))).
Proof.
  intros H; unfold Main.detect_language_with_confidence, call_detect.
  rewrite H; reflexivity.
Qed.

Lemma detect_failure (e : exn) :
  detect ext t = Raises e ->
  Main.detect_language_with_confidence ext t
  = ([Detect t; LogError "Language detection failed" e],
     Returns (py "en", 0.5)).
Proof.
  intros H; unfold Main.detect_language_with_confidence, call_detect.
  rewrite H; reflexivity.
Qed.

(** Detection never fails and never reaches the Translator. *)
Lemma detection_total :
  exists l c, result (Main.detect_language_with_confidence ext t)
              = Returns (l, c).
Proof.
  destruct (detect ext t) as [l|e] eqn:H.
  - rewrite (detect_success l H); do 2 eexists; reflexivity.
  - rewrite (detect_failure e H); do 2 eexists; reflexivity.
Qed.

Lemma detection_no_translate :
  filter is_translate (events (Main.detect_language_with_confidence ext t))
  = [].
Proof.
  destruct (detect ext t) as [l|e] eqn:H.
  - rewrite (detect_success l H); reflexivity.
  - rewrite (detect_failure e H); reflexivity.
Qed.
End Detection.

(** ** The pipeline after validation *)

Section Pipeline.
Variable ext : collaborators.
Variable request : TranslationRequest.

Let txt := text request.
Let tgt := req_target_language request.

Hypothesis nonempty : strip txt <> [].
Hypothesis supported : dict_contains tgt Main.SUPPORTED_LANGUAGES = true.

Variables (lang : str) (conf : float).
Hypothesis detected :
  result (Main.detect_language_with_confidence ext txt) = Returns (lang, conf).

Let detection_events := events (Main.detect_language_with_confidence ext txt).

Lemma translate_text_same_language :
  lang = tgt ->
  Main.translate_text ext request
  = (detection_events,
     Returns {| original_text := txt;
                detected_language := lang;
                confidence_level := conf;
                translated_text := txt;
                target_language := tgt |}).
Proof.
  intros Heq. unfold Main.translate_text.
  fold txt tgt.
  apply truthy_true_iff in nonempty. rewrite nonempty, supported.
  cbv beta iota delta [negb].
  subst detection_events.
  destruct (Main.detect_language_with_confidence ext txt) as [l r].
  unfold result, events in *; cbn [fst snd] in *. subst r.
  unfold bind, try_except.
  rewrite Heq, str_eqb_refl. unfold ret.
  rewrite app_nil_r. reflexivity.
Qed.

Lemma translate_text_delegates :
  lang <> tgt ->
  Main.translate_text ext request
  = match translate ext lang tgt txt with
    | Returns (Some (c :: s)) =>
        (detection_events ++ [Translate lang tgt txt],
         Returns {| original_text := txt;
                    detected_language := lang;
                    confidence_level := conf;
                    translated_text := c :: s;
                    target_language := tgt |})
    | Returns _ =>
        (detection_events
           ++ [Translate lang tgt txt;
               LogError "Translation error"
                 (HTTPException 500 "Translation failed")],
         Raises (HTTPException 500 "Translation service error"))
    | Raises e =>
        (detection_events
           ++ [Translate lang tgt txt; LogError "Translation error" e],
         Raises (HTTPException 500 "Translation service error"))
    end.
Proof.
  intros Hne. unfold Main.translate_text.
  fold txt tgt.
  apply truthy_true_iff in nonempty. rewrite nonempty, supported.
  cbv beta iota delta [negb].
  subst detection_events.
  destruct (Main.detect_language_with_confidence ext txt) as [l r].
  unfold result, events in *; cbn [fst snd] in *. subst r.
  unfold bind at 1.
  rewrite (str_eqb_neq _ _ Hne).
  unfold call_translate.
  destruct (translate ext lang tgt txt) as [[[|c s]|]|e];
    cbn; rewrite ?app_nil_r; reflexivity.
Qed.
End Pipeline.

(** ** Validation *)

(** C3.  The empty-text check comes first and the target-language check
    second, and both come before any call to the Language Detector or the
    Translator: a text that is empty once stripped fails with status 400 and
    detail "Text cannot be empty" whatever the target is; a non-empty text
    with a target that is not a key of the table fails with status 400 and
    detail "Target language not supported"; in both cases no event at all
    has happened, so no collaborator was invoked. *)
Theorem validation_precedes_external_calls
  (ext : collaborators) (request : TranslationRequest) :
  (strip (text request) = [] ->
   Main.translate_text ext request
   = ([], Raises (HTTPException 400 "Text cannot be empty")))
  /\ (strip (text request) <> [] ->
      dict_contains (req_target_language request) Main.SUPPORTED_LANGUAGES
      = false ->
      Main.translate_text ext request
      = ([], Raises (HTTPException 400 "Target language not supported")))
  /\ ((strip (text request) = []
       \/ dict_contains (req_target_language request) Main.SUPPORTED_LANGUAGES
          = false) ->
      external_calls (Main.translate_text ext request) = 0%nat).
Proof.
  assert (E : strip (text request) = [] ->
              Main.translate_text ext request
              = ([], Raises (HTTPException 400 "Text cannot be empty"))).
  { intros H. unfold Main.translate_text. rewrite H. reflexivity. }
  assert (U : strip (text request) <> [] ->
              dict_contains (req_target_language request)
                Main.SUPPORTED_LANGUAGES = false ->
              Main.translate_text ext request
              = ([], Raises (HTTPException 400
                               "Target language not supported"))).
  { intros H1 H2. unfold Main.translate_text.
    apply truthy_true_iff in H1. rewrite H1, H2. reflexivity. }
  repeat split; auto.
  intros [H|H].
  - rewrite (E H); reflexivity.
  - destruct (strip (text request)) as [|c s] eqn:Hs.
    + rewrite (E eq_refl); reflexivity.
    + rewrite U; [reflexivity | congruence | exact H].
Qed.

(** ** Short-circuit *)

(** C4.  For a non-empty text and a supported target, when the detection
    step yields the target language itself, the response carries the input
    text unchanged as [translated_text] and the confidence of the detection
    step, which on detector success is [min(0.95, 0.7 + len(text) * 0.01)];
    the Translator is not called. *)
Theorem same_language_short_circuit
  (ext : collaborators) (request : TranslationRequest)
  (lang : str) (conf : float) :
  strip (text request) <> [] ->
  dict_contains (req_target_language request) Main.SUPPORTED_LANGUAGES = true ->
  result (Main.detect_language_with_confidence ext (text request))
  = Returns (lang, conf) ->
  lang = req_target_language request ->
  result (Main.translate_text ext request)
  = Returns {| original_text := text request;
               detected_language := lang;
               confidence_level := conf;
               translated_text := text request;
               target_language := req_target_language request |}
  /\ translator_calls (Main.translate_text ext request) = 0%nat
  /\ (forall l, detect ext (text request) = Returns l ->
      conf = py_min 0.95 (0.7 + float_of_len (len (text request)) * 0.01)).
Proof.
  intros Hne Hsup Hdet Heq.
  rewrite (translate_text_same_language ext request Hne Hsup _ _ Hdet Heq).
  repeat split.
  - unfold translator_calls, events; cbn [fst].
    fold (events (Main.detect_language_with_confidence ext (text request))).
    rewrite detection_no_translate; reflexivity.
  - intros l Hl. rewrite (detect_success ext _ _ Hl) in Hdet.
    unfold result in Hdet; cbn [snd] in Hdet. congruence.
Qed.

(** ** Detector failure *)

(** C5.  For a non-empty text and a supported target, a detector that
    raises does not make the request fail: detection yields "en" with
    confidence 0.5; with target "en" the request succeeds at once, and with
    any other target the Translator is called exactly once, with source
    "en", and its non-empty result is returned with detected language "en"
    and confidence 0.5. *)
Theorem detector_failure_falls_back_to_english
  (ext : collaborators) (request : TranslationRequest) (e : exn) :
  strip (text request) <> [] ->
  dict_contains (req_target_language request) Main.SUPPORTED_LANGUAGES = true ->
  detect ext (text request) = Raises e ->
  result (Main.detect_language_with_confidence ext (text request))
  = Returns (py "en", 0.5)
  /\ (req_target_language request = py "en" ->
      result (Main.translate_text ext request)
      = Returns {| original_text := text request;
                   detected_language := py "en";
                   confidence_level := 0.5;
                   translated_text := text request;
                   target_language := req_target_language request |})
  /\ (req_target_language request <> py "en" ->
      filter is_translate (events (Main.translate_text ext request))
      = [Translate (py "en") (req_target_language request) (text request)]
      /\ forall c s,
          translate ext (py "en") (req_target_language request) (text request)
          = Returns (Some (c :: s)) ->
          result (Main.translate_text ext request)
          = Returns {| original_text := text request;
                       detected_language := py "en";
                       confidence_level := 0.5;
                       translated_text := c :: s;
                       target_language := req_target_language request |}).
Proof.
  intros Hne Hsup Hdet.
  assert (D : result (Main.detect_language_with_confidence ext (text request))
              = Returns (py "en", 0.5))
    by (rewrite (detect_failure ext _ _ Hdet); reflexivity).
  split; [exact D|]. split.
  - intros Heq.
    rewrite (translate_text_same_language ext request Hne Hsup _ _ D (eq_sym Heq)).
    reflexivity.
  - intros Hdiff.
    assert (Hdiff' : py "en" <> req_target_language request) by congruence.
    rewrite (translate_text_delegates ext request Hne Hsup _ _ D Hdiff').
    rewrite (detect_failure ext _ _ Hdet).
    split.
    + destruct (translate ext (py "en") (req_target_language request)
                  (text request)) as [[[|c s]|]|e']; reflexivity.
    + intros c s Htr. rewrite Htr. reflexivity.
Qed.

(** C10.  For a non-empty text with target "en", a detector that raises
    leads to the short-circuit: the request succeeds with the input text
    unchanged as [translated_text], detected language "en" and confidence
    0.5, and the Translator is not called. *)
Theorem detector_failure_with_english_target
  (ext : collaborators) (request : TranslationRequest) (e : exn) :
  strip (text request) <> [] ->
  req_target_language request = py "en" ->
  detect ext (text request) = Raises e ->
  result (Main.translate_text ext request)
  = Returns {| original_text := text request;
               detected_language := py "en";
               confidence_level := 0.5;
               translated_text := text request;
               target_language := py "en" |}
  /\ translator_calls (Main.translate_text ext request) = 0%nat.
Proof.
  intros Hne Htgt Hdet.
  assert (Hsup : dict_contains (req_target_language request)
                   Main.SUPPORTED_LANGUAGES = true)
    by (rewrite Htgt; vm_compute; reflexivity).
  assert (D : result (Main.detect_language_with_confidence ext (text request))
              = Returns (py "en", 0.5))
    by (rewrite (detect_failure ext _ _ Hdet); reflexivity).
  rewrite (translate_text_same_language ext request Hne Hsup _ _ D (eq_sym Htgt)).
  rewrite Htgt. split; [reflexivity|].
  unfold translator_calls, events; cbn [fst].
  fold (events (Main.detect_language_with_confidence ext (text request))).
  rewrite detection_no_translate; reflexivity.
Qed.

(** ** Delegation to the Translator *)

(** C6.  For a non-empty text and a supported target that differs from
    the detected language, a Translator that raises makes the request fail
    with status 500 and detail "Translation service error". *)
Theorem translator_error_is_service_error
  (ext : collaborators) (request : TranslationRequest)
  (lang : str) (conf : float) (e : exn) :
  strip (text request) <> [] ->
  dict_contains (req_target_language request) Main.SUPPORTED_LANGUAGES = true ->
  result (Main.detect_language_with_confidence ext (text request))
  = Returns (lang, conf) ->
  lang <> req_target_language request ->
  translate ext lang (req_target_language request) (text request) = Raises e ->
  result (Main.translate_text ext request)
  = Raises (HTTPException 500 "Translation service error").
Proof.
  intros Hne Hsup Hdet Hdiff Htr.
  rewrite (translate_text_delegates ext request Hne Hsup _ _ Hdet Hdiff), Htr.
  reflexivity.
Qed.

(** C7.  For a non-empty text and a supported target that differs from
    the detected language, a non-empty result of the Translator is returned
    as [translated_text], with the original untrimmed text, the detected
    language and confidence of the detection step, and the target echoed. *)
Theorem translation_success_response
  (ext : collaborators) (request : TranslationRequest)
  (lang : str) (conf : float) (out : str) :
  strip (text request) <> [] ->
  dict_contains (req_target_language request) Main.SUPPORTED_LANGUAGES = true ->
  result (Main.detect_language_with_confidence ext (text request))
  = Returns (lang, conf) ->
  lang <> req_target_language request ->
  translate ext lang (req_target_language request) (text request)
  = Returns (Some out) ->
  out <> [] ->
  result (Main.translate_text ext request)
  = Returns {| original_text := text request;
               detected_language := lang;
               confidence_level := conf;
               translated_text := out;
               target_language := req_target_language request |}.
Proof.
  intros Hne Hsup Hdet Hdiff Htr Hout.
  rewrite (translate_text_delegates ext request Hne Hsup _ _ Hdet Hdiff), Htr.
  destruct out as [|c s]; [congruence | reflexivity].
Qed.

(** ** The two application files *)

(** C9.  For every request and every behaviour of the two collaborators,
    [translate_text] of [main.py] and of [main_vercel.py] perform the same
    events and end with the same response or the same [HTTPException]. *)
Theorem main_and_vercel_agree
  (ext : collaborators) (request : TranslationRequest) :
  Main.translate_text ext request = MainVercel.translate_text ext request.
Proof.
  unfold Main.translate_text, MainVercel.translate_text.
  replace MainVercel.SUPPORTED_LANGUAGES with Main.SUPPORTED_LANGUAGES
    by reflexivity.
  replace (MainVercel.detect_language_with_confidence ext (text request))
    with (Main.detect_language_with_confidence ext (text request))
    by reflexivity.
  reflexivity.
Qed.

(** ** Confidence: formula, bounds, monotonicity, saturation *)

Lemma float_mul_comm (x y : float) : x * y = y * x.
Proof.
  apply Prim2SF_inj. rewrite !FloatAxioms.mul_spec.
  unfold SF64mul, SFmul.
  destruct (Prim2SF x) as [sx|sx| |sx mx ex], (Prim2SF y) as [sy|sy| |sy my ey];
    try reflexivity; try (rewrite (xorb_comm sx sy); reflexivity).
  rewrite (xorb_comm sx sy), (Pos.mul_comm mx my), (Z.add_comm ex ey).
  reflexivity.
Qed.

Lemma spec_confidence_is_code_confidence (n : nat) :
  spec_confidence n = code_confidence n.
Proof.
  unfold spec_confidence, code_confidence.
  rewrite (float_mul_comm 0.01 (float_of_len n)). reflexivity.
Qed.

Lemma bounds_below_64 : bounds_below 64 = true.
Proof. vm_compute; reflexivity. Qed.

Lemma saturated_from_25_to_63 : saturated_between 25 39 = true.
Proof. vm_compute; reflexivity. Qed.

Lemma monotone_below_25 : monotone_below 25 = true.
Proof. vm_compute; reflexivity. Qed.

Lemma code_confidence_saturated (n : nat) :
  (25 <= n)%nat -> (Z.of_nat n < 2 ^ 63)%Z -> code_confidence n = 0.95.
Proof.
  intros Hlo Hhi. destruct (Nat.lt_ge_cases n 64) as [Hsmall|Hbig].
  - pose proof saturated_from_25_to_63 as T. unfold saturated_between in T.
    rewrite forallb_forall in T.
    apply Leibniz.eqb_spec, T, in_seq. lia.
  - apply confidence_saturates_from_64. lia.
Qed.

Lemma code_confidence_bounds (n : nat) :
  (Z.of_nat n < 2 ^ 63)%Z ->
  (0.7 <=? code_confidence n) = true /\ (code_confidence n <=? 0.95) = true.
Proof.
  intros Hhi. destruct (Nat.lt_ge_cases n 64) as [Hsmall|Hbig].
  - pose proof bounds_below_64 as T. unfold bounds_below in T.
    rewrite forallb_forall in T.
    apply andb_true_iff, T, in_seq. lia.
  - rewrite confidence_saturates_from_64 by lia.
    split; vm_compute; reflexivity.
Qed.

Lemma code_confidence_monotone (n m : nat) :
  (n <= m)%nat -> (Z.of_nat m < 2 ^ 63)%Z ->
  (code_confidence n <=? code_confidence m) = true.
Proof.
  intros Hnm Hhi. destruct (Nat.lt_ge_cases m 25) as [Hsmall|Hbig].
  - pose proof monotone_below_25 as T. unfold monotone_below in T.
    rewrite forallb_forall in T.
    assert (Hn : In n (seq 0 25)) by (apply in_seq; lia).
    specialize (T n Hn). rewrite forallb_forall in T.
    apply T, in_seq. lia.
  - rewrite (code_confidence_saturated m Hbig Hhi).
    apply code_confidence_bounds. lia.
Qed.

(** C2.  On every text the detector accepts (its length a [Py_ssize_t]),
    the confidence is [min(0.95, 0.7 + 0.01 * len(text))] in binary64
    arithmetic; it lies between 0.7 and 0.95, equals 0.95 exactly from 25
    characters on, and does not decrease when the text gets longer. *)
Theorem confidence_formula_and_bounds
  (ext : collaborators) (t lang : str) :
  detect ext t = Returns lang ->
  (Z.of_nat (len t) < 2 ^ 63)%Z ->
  exists c,
    result (Main.detect_language_with_confidence ext t) = Returns (lang, c)
    /\ c = spec_confidence (len t)
    /\ (0.7 <=? c) = true
    /\ (c <=? 0.95) = true
    /\ ((25 <= len t)%nat -> c = 0.95)
    /\ (forall t' lang' c',
           detect ext t' = Returns lang' ->
           (Z.of_nat (len t') < 2 ^ 63)%Z ->
           result (Main.detect_language_with_confidence ext t')
           = Returns (lang', c') ->
           (len t <= len t')%nat ->
           (c <=? c') = true).
Proof.
  intros Hdet Hlen. exists (code_confidence (len t)).
  split; [rewrite (detect_success ext t lang Hdet); reflexivity|].
  split; [symmetry; apply spec_confidence_is_code_confidence|].
  split; [apply code_confidence_bounds; assumption|].
  split; [apply code_confidence_bounds; assumption|].
  split; [intros H; apply code_confidence_saturated; assumption|].
  intros t' lang' c' Hdet' Hlen' Hres Hle.
  rewrite (detect_success ext t' lang' Hdet') in Hres.
  unfold result in Hres; cbn [snd] in Hres.
  injection Hres as <-.
  apply code_confidence_monotone; assumption.
Qed.

(** ** The language table and its listing *)

Lemma distinct_NoDup (l : list str) : distinct l = true -> NoDup l.
Proof.
  induction l as [|a l IH]; cbn [distinct]; intros H; constructor.
  - apply andb_true_iff in H as [H _]. intros Hin.
    apply negb_true_iff in H.
    assert (E : existsb (str_eqb a) l = true)
      by (apply existsb_exists; exists a; split;
          [exact Hin | apply str_eqb_refl]).
    congruence.
  - apply IH. apply andb_true_iff in H as [_ H]. exact H.
Qed.

(** The dict literal names every key once, so the list of its items is the
    dict. *)
Lemma SUPPORTED_LANGUAGES_keys_distinct :
  NoDup (map fst Main.SUPPORTED_LANGUAGES).
Proof. apply distinct_NoDup. vm_compute; reflexivity. Qed.

Lemma dict_contains_key {V : Type} (d : list (str * V)) (kv : str * V) :
  In kv d -> dict_contains (fst kv) d = true.
Proof.
  intros H. unfold dict_contains. apply existsb_exists.
  exists kv; split; [exact H | apply str_eqb_refl].
Qed.

(** The loop of [get_supported_languages] appends one record per item. *)
Lemma languages_loop (items : list (str * language_names)) :
  forall acc : list LanguageInfo,
    fold_left
      (fun languages item =>
         let '(code, info) := item in
         languages ++ [ {| code := code;
                           name := names_name info;
                           native_name := names_native_name info |} ])
      items acc
    = acc ++ map (fun item => {| code := fst item;
                                 name := names_name (snd item);
                                 native_name := names_native_name (snd item) |})
               items.
Proof.
  induction items as [|[c info] items IH]; intros acc; cbn [fold_left map].
  - rewrite app_nil_r; reflexivity.
  - rewrite IH, <- app_assoc. reflexivity.
Qed.

(** C8.  The listing has as many records as the table has entries, every
    record's code is a key of the table, and the codes come in the table's
    insertion order, which is not the alphabetical order of the codes. *)
Theorem languages_listing_follows_table :
  List.length Main.get_supported_languages
  = List.length Main.SUPPORTED_LANGUAGES
  /\ (forall info, In info Main.get_supported_languages ->
                   dict_contains (code info) Main.SUPPORTED_LANGUAGES = true)
  /\ map code Main.get_supported_languages = map fst Main.SUPPORTED_LANGUAGES
  /\ alphabetical (map code Main.get_supported_languages) = false.
Proof.
  unfold Main.get_supported_languages.
  rewrite languages_loop. cbn [app].
  split; [|split; [|split]].
  - apply length_map.
  - intros info Hin. apply in_map_iff in Hin as (kv & <- & Hkv).
    cbn [code]. apply dict_contains_key; exact Hkv.
  - rewrite map_map. apply map_ext. intros kv; reflexivity.
  - vm_compute; reflexivity.
Qed.

(** ** An empty result of the Translator *)

(** Whatever falsy value the Translator returns, the [HTTPException]
    raised for it is caught by the handler of the enclosing [try]. *)
Lemma falsy_translation_is_caught
  (ext : collaborators) (request : TranslationRequest)
  (lang : str) (conf : float) (out : option str) :
  strip (text request) <> [] ->
  dict_contains (req_target_language request) Main.SUPPORTED_LANGUAGES = true ->
  result (Main.detect_language_with_confidence ext (text request))
  = Returns (lang, conf) ->
  lang <> req_target_language request ->
  translate ext lang (req_target_language request) (text request)
  = Returns out ->
  truthy_opt out = false ->
  result (Main.translate_text ext request)
  = Raises (HTTPException 500 "Translation service error")
  /\ In (LogError "Translation error" (HTTPException 500 "Translation failed"))
       (events (Main.translate_text ext request)).
Proof.
  intros Hne Hsup Hdet Hdiff Htr Hout.
  rewrite (translate_text_delegates ext request Hne Hsup _ _ Hdet Hdiff), Htr.
  destruct out as [[|c s]|]; try discriminate Hout;
    (split; [reflexivity|]); unfold events; cbn [fst];
    apply in_or_app; right; right; left; reflexivity.
Qed.

(** C1.  With a detector answering "en" and a Translator returning the
    empty string, translating "Hello" to "es" ends with status 500 and
    detail "Translation service error": the "Translation failed" exception
    is raised but caught and replaced. *)
Theorem empty_translation_ends_as_service_error :
  let ext := stub (Returns (py "en")) (Returns (Some [])) in
  let request := {| text := py "Hello"; req_target_language := py "es" |} in
  Main.translate_text ext request
  = ([Detect (py "Hello");
      Translate (py "en") (py "es") (py "Hello");
      LogError "Translation error" (HTTPException 500 "Translation failed")],
     Raises (HTTPException 500 "Translation service error"))
  /\ result (Main.translate_text ext request)
     <> Raises (HTTPException 500 "Translation failed").
Proof.
  cbv zeta. split.
  - vm_compute; reflexivity.
  - vm_compute; discriminate.
Qed.

(** ** Concrete requests *)

Lemma validation_precedes_external_calls_witness :
  let ext := stub (Raises (LibraryError "unused")) (Raises (LibraryError "unused")) in
  Main.translate_text ext
    {| text := py "  "; req_target_language := py "xx-not-a-real-code" |}
  = ([], Raises (HTTPException 400 "Text cannot be empty"))
  /\ Main.translate_text ext
       {| text := py "Hello"; req_target_language := py "xx-not-a-real-code" |}
     = ([], Raises (HTTPException 400 "Target language not supported")).
Proof.
  cbv zeta. split.
  - apply (proj1 (validation_precedes_external_calls _ _)).
    vm_compute; reflexivity.
  - apply (proj1 (proj2 (validation_precedes_external_calls _ _))).
    + vm_compute; discriminate.
    + vm_compute; reflexivity.
Defined.

Lemma confidence_formula_and_bounds_witness :
  let ext := stub (Returns (py "en")) (Returns (Some (py "Hola"))) in
  let t := py "Hello, world!" in
  detect ext t = Returns (py "en")
  /\ (Z.of_nat (len t) < 2 ^ 63)%Z
  /\ exists c,
      result (Main.detect_language_with_confidence ext t)
      = Returns (py "en", c)
      /\ c = spec_confidence (len t)
      /\ (0.7 <=? c) = true
      /\ (c <=? 0.95) = true
      /\ ((25 <= len t)%nat -> c = 0.95)
      /\ (forall t' lang' c',
             detect ext t' = Returns lang' ->
             (Z.of_nat (len t') < 2 ^ 63)%Z ->
             result (Main.detect_language_with_confidence ext t')
             = Returns (lang', c') ->
             (len t <= len t')%nat ->
             (c <=? c') = true).
Proof.
  cbv zeta.
  split; [reflexivity|]. split; [vm_compute; reflexivity|].
  apply (confidence_formula_and_bounds
           (stub (Returns (py "en")) (Returns (Some (py "Hola"))))
           (py "Hello, world!") (py "en")).
  - reflexivity.
  - vm_compute; reflexivity.
Defined.

Lemma same_language_short_circuit_witness :
  let ext := stub (Returns (py "es")) (Raises (LibraryError "not called")) in
  let request := {| text := py "Hola mundo!"; req_target_language := py "es" |} in
  strip (text request) <> []
  /\ dict_contains (req_target_language request) Main.SUPPORTED_LANGUAGES = true
  /\ result (Main.detect_language_with_confidence ext (text request))
     = Returns (py "es", code_confidence 11)
  /\ result (Main.translate_text ext request)
     = Returns {| original_text := py "Hola mundo!";
                  detected_language := py "es";
                  confidence_level := code_confidence 11;
                  translated_text := py "Hola mundo!";
                  target_language := py "es" |}
  /\ translator_calls (Main.translate_text ext request) = 0%nat.
Proof.
  cbv zeta.
  split; [vm_compute; discriminate|].
  split; [vm_compute; reflexivity|].
  split; [vm_compute; reflexivity|].
  pose proof (same_language_short_circuit
                (stub (Returns (py "es")) (Raises (LibraryError "not called")))
                {| text := py "Hola mundo!"; req_target_language := py "es" |}
                (py "es") (code_confidence 11)) as H.
  destruct H as (H1 & H2 & _).
  - vm_compute; discriminate.
  - vm_compute; reflexivity.
  - vm_compute; reflexivity.
  - reflexivity.
  - split; [exact H1 | exact H2].
Defined.

Lemma detector_failure_falls_back_to_english_witness :
  let ext := stub (Raises (LibraryError "No features in text."))
                  (Returns (Some (py "n'importe quoi"))) in
  let request := {| text := py "anything"; req_target_language := py "fr" |} in
  strip (text request) <> []
  /\ dict_contains (req_target_language request) Main.SUPPORTED_LANGUAGES = true
  /\ filter is_translate (events (Main.translate_text ext request))
     = [Translate (py "en") (py "fr") (py "anything")]
  /\ result (Main.translate_text ext request)
     = Returns {| original_text := py "anything";
                  detected_language := py "en";
                  confidence_level := 0.5;
                  translated_text := py "n'importe quoi";
                  target_language := py "fr" |}.
Proof.
  cbv zeta.
  split; [vm_compute; discriminate|].
  split; [vm_compute; reflexivity|].
  pose proof (detector_failure_falls_back_to_english
                (stub (Raises (LibraryError "No features in text."))
                      (Returns (Some (py "n'importe quoi"))))
                {| text := py "anything"; req_target_language := py "fr" |}
                (LibraryError "No features in text.")) as H.
  destruct H as (_ & _ & H).
  - vm_compute; discriminate.
  - vm_compute; reflexivity.
  - reflexivity.
  - destruct H as [H1 H2]; [vm_compute; discriminate|].
    split; [exact H1|].
    apply (H2 110%N (tl (py "n'importe quoi"))). reflexivity.
Defined.

Lemma detector_failure_with_english_target_witness :
  let ext := stub (Raises (LibraryError "No features in text."))
                  (Raises (LibraryError "not called")) in
  let request := {| text := py "12345"; req_target_language := py "en" |} in
  strip (text request) <> []
  /\ result (Main.translate_text ext request)
     = Returns {| original_text := py "12345";
                  detected_language := py "en";
                  confidence_level := 0.5;
                  translated_text := py "12345";
                  target_language := py "en" |}
  /\ translator_calls (Main.translate_text ext request) = 0%nat.
Proof.
  cbv zeta.
  split; [vm_compute; discriminate|].
  apply (detector_failure_with_english_target
           (stub (Raises (LibraryError "No features in text."))
                 (Raises (LibraryError "not called")))
           {| text := py "12345"; req_target_language := py "en" |}
           (LibraryError "No features in text.")).
  - vm_compute; discriminate.
  - reflexivity.
  - reflexivity.
Defined.

Lemma translator_error_is_service_error_witness :
  let ext := stub (Returns (py "en")) (Raises (LibraryError "TooManyRequests")) in
  let request := {| text := py "Hello, world!"; req_target_language := py "es" |} in
  strip (text request) <> []
  /\ dict_contains (req_target_language request) Main.SUPPORTED_LANGUAGES = true
  /\ result (Main.translate_text ext request)
     = Raises (HTTPException 500 "Translation service error").
Proof.
  cbv zeta.
  split; [vm_compute; discriminate|].
  split; [vm_compute; reflexivity|].
  apply (translator_error_is_service_error
           (stub (Returns (py "en")) (Raises (LibraryError "TooManyRequests")))
           {| text := py "Hello, world!"; req_target_language := py "es" |}
           (py "en") (code_confidence 13) (LibraryError "TooManyRequests")).
  - vm_compute; discriminate.
  - vm_compute; reflexivity.
  - reflexivity.
  - vm_compute; discriminate.
  - reflexivity.
Defined.

Lemma translation_success_response_witness :
  let ext := stub (Returns (py "fr")) (Returns (Some (py "Hello world!"))) in
  let request := {| text := py "Bonjour le monde!"; req_target_language := py "en" |} in
  strip (text request) <> []
  /\ dict_contains (req_target_language request) Main.SUPPORTED_LANGUAGES = true
  /\ result (Main.translate_text ext request)
     = Returns {| original_text := py "Bonjour le monde!";
                  detected_language := py "fr";
                  confidence_level := code_confidence 17;
                  translated_text := py "Hello world!";
                  target_language := py "en" |}.
Proof.
  cbv zeta.
  split; [vm_compute; discriminate|].
  split; [vm_compute; reflexivity|].
  apply (translation_success_response
           (stub (Returns (py "fr")) (Returns (Some (py "Hello world!"))))
           {| text := py "Bonjour le monde!"; req_target_language := py "en" |}
           (py "fr") (code_confidence 17) (py "Hello world!")).
  - vm_compute; discriminate.
  - vm_compute; reflexivity.
  - reflexivity.
  - vm_compute; discriminate.
  - reflexivity.
  - vm_compute; discriminate.
Defined.

(** * Further properties of the handlers *)

(** ** Whitespace *)

Lemma lstrip_nil_iff (s : str) : lstrip s = [] <-> forallb isspace s = true.
Proof.
  induction s as [|c s IH]; cbn [lstrip forallb]; [tauto|].
  destruct (isspace c); cbn [andb]; [exact IH|].
  split; discriminate.
Qed.

Lemma lstrip_head (s : str) (c : N) (r : str) :
  lstrip s = c :: r -> isspace c = false.
Proof.
  induction s as [|x s IH]; cbn [lstrip]; [discriminate|].
  destruct (isspace x) eqn:E; [exact IH|].
  intros H; injection H as -> _; exact E.
Qed.

Lemma forallb_rev {A : Type} (f : A -> bool) (l : list A) :
  forallb f (rev l) = forallb f l.
Proof.
  induction l as [|a l IH]; [reflexivity|].
  cbn [rev forallb]. rewrite forallb_app, IH. cbn [forallb].
  rewrite andb_true_r. apply andb_comm.
Qed.

(** [text.strip()] is empty exactly when every code point is whitespace. *)
Lemma strip_nil_iff (s : str) : strip s = [] <-> forallb isspace s = true.
Proof.
  unfold strip, rstrip. split.
  - intros H. destruct (lstrip s) as [|c r] eqn:E.
    + apply lstrip_nil_iff; exact E.
    + exfalso.
      assert (R : lstrip (rev (c :: r)) = []).
      { destruct (lstrip (rev (c :: r))) as [|y l'] eqn:E'; [reflexivity|].
        cbn [rev] in H. apply app_eq_nil in H as [_ H]. discriminate H. }
      apply lstrip_nil_iff in R. rewrite forallb_rev in R.
      cbn [forallb] in R. rewrite (lstrip_head s c r E) in R. discriminate.
  - intros H. apply lstrip_nil_iff in H. rewrite H. reflexivity.
Qed.

(** ** Case analysis of a request *)

Lemma detection_cases (ext : collaborators) (t : str) :
  (exists l, detect ext t = Returns l
             /\ Main.detect_language_with_confidence ext t
                = ([Detect t], Returns (l, code_confidence (len t))))
  \/ (exists e, detect ext t = Raises e
                /\ Main.detect_language_with_confidence ext t
                   = ([Detect t; LogError "Language detection failed" e],
                      Returns (py "en", 0.5))).
Proof.
  destruct (detect ext t) as [l|e] eqn:H; [left; exists l|right; exists e];
    (split; [reflexivity|]).
  - exact (detect_success ext t l H).
  - exact (detect_failure ext t e H).
Qed.

Lemma str_eq_dec (a b : str) : a = b \/ a <> b.
Proof.
  destruct (str_eqb a b) eqn:E.
  - left; apply str_eqb_eq; exact E.
  - right; intros H; apply str_eqb_eq in H; congruence.
Qed.

(** Every request falls in one of four cases, each with its events and
    outcome. *)
Lemma translate_text_cases (ext : collaborators) (request : TranslationRequest) :
  (strip (text request) = []
   /\ Main.translate_text ext request
      = ([], Raises (HTTPException 400 "Text cannot be empty")))
  \/ (strip (text request) <> []
      /\ dict_contains (req_target_language request) Main.SUPPORTED_LANGUAGES
         = false
      /\ Main.translate_text ext request
         = ([], Raises (HTTPException 400 "Target language not supported")))
  \/ (strip (text request) <> []
      /\ dict_contains (req_target_language request) Main.SUPPORTED_LANGUAGES
         = true
      /\ exists lang conf,
          result (Main.detect_language_with_confidence ext (text request))
          = Returns (lang, conf)
          /\ lang = req_target_language request
          /\ Main.translate_text ext request
             = (events (Main.detect_language_with_confidence ext (text request)),
                Returns {| original_text := text request;
                           detected_language := lang;
                           confidence_level := conf;
                           translated_text := text request;
                           target_language := req_target_language request |}))
  \/ (strip (text request) <> []
      /\ dict_contains (req_target_language request) Main.SUPPORTED_LANGUAGES
         = true
      /\ exists lang conf,
          result (Main.detect_language_with_confidence ext (text request))
          = Returns (lang, conf)
          /\ lang <> req_target_language request
          /\ Main.translate_text ext request
             = match translate ext lang (req_target_language request)
                       (text request) with
               | Returns (Some (c :: s)) =>
                   (events (Main.detect_language_with_confidence ext
                              (text request))
                      ++ [Translate lang (req_target_language request)
                            (text request)],
                    Returns {| original_text := text request;
                               detected_language := lang;
                               confidence_level := conf;
                               translated_text := c :: s;
                               target_language := req_target_language request |})
               | Returns _ =>
                   (events (Main.detect_language_with_confidence ext
                              (text request))
                      ++ [Translate lang (req_target_language request)
                            (text request);
                          LogError "Translation error"
                            (HTTPException 500 "Translation failed")],
                    Raises (HTTPException 500 "Translation service error"))
               | Raises e =>
                   (events (Main.detect_language_with_confidence ext
                              (text request))
                      ++ [Translate lang (req_target_language request)
                            (text request);
                          LogError "Translation error" e],
                    Raises (HTTPException 500 "Translation service error"))
               end).
Proof.
  destruct (strip (text request)) as [|c0 s0] eqn:Hs.
  - left. split; [reflexivity|].
    unfold Main.translate_text. rewrite Hs. reflexivity.
  - assert (Hne : strip (text request) <> []) by (rewrite Hs; discriminate).
    rewrite <- Hs in *.
    destruct (dict_contains (req_target_language request)
                Main.SUPPORTED_LANGUAGES) eqn:Hc.
    + destruct (detection_total ext (text request)) as (lang & conf & Hd).
      destruct (str_eq_dec lang (req_target_language request)) as [Heq|Hdiff].
      * right; right; left. split; [exact Hne|]. split; [reflexivity|].
        exists lang, conf. split; [exact Hd|]. split; [exact Heq|].
        exact (translate_text_same_language ext request Hne Hc lang conf Hd Heq).
      * right; right; right. split; [exact Hne|]. split; [reflexivity|].
        exists lang, conf. split; [exact Hd|]. split; [exact Hdiff|].
        exact (translate_text_delegates ext request Hne Hc lang conf Hd Hdiff).
    + right; left. split; [exact Hne|]. split; [reflexivity|].
      unfold Main.translate_text. apply truthy_true_iff in Hne.
      rewrite Hne, Hc. reflexivity.
Qed.

(** Splits a request into its leaf cases: empty text, unsupported target,
    same language, and the three endings of a call to the Translator, each
    with the detector succeeding or raising. *)
Ltac leaf_cases ext request :=
  destruct (translate_text_cases ext request)
    as [(Hs & Hm)
       |[(Hs & Hc & Hm)
        |[(Hs & Hc & dlang & dconf & Hd & Hl & Hm)
         |(Hs & Hc & dlang & dconf & Hd & Hl & Hm)]]];
  [ | 
  | destruct (detection_cases ext (text request))
      as [(l & Hdet & HD)|(e & Hdet & HD)];
    rewrite HD in Hd, Hm; unfold result, events in Hd, Hm;
    cbn [fst snd] in Hd, Hm; injection Hd as <- <-
  | destruct (detection_cases ext (text request))
      as [(l & Hdet & HD)|(e & Hdet & HD)];
    rewrite HD in Hd, Hm; unfold result, events in Hd, Hm;
    cbn [fst snd app] in Hd, Hm; injection Hd as <- <-;
    match type of Hm with
    | _ = match ?t with _ => _ end =>
        destruct t as [[[|c s]|]|e'] eqn:Htr
    end ].

(** ** Outcomes *)

(** X1.  A request ends in a response or in one of three errors: 400
    "Text cannot be empty", 400 "Target language not supported" or 500
    "Translation service error".  The handler for unexpected errors is never
    reached: no failure of a collaborator ends as "Internal server error". *)
Theorem translate_text_outcomes
  (ext : collaborators) (request : TranslationRequest) :
  ((exists r, result (Main.translate_text ext request) = Returns r)
   \/ result (Main.translate_text ext request)
      = Raises (HTTPException 400 "Text cannot be empty")
   \/ result (Main.translate_text ext request)
      = Raises (HTTPException 400 "Target language not supported")
   \/ result (Main.translate_text ext request)
      = Raises (HTTPException 500 "Translation service error"))
  /\ result (Main.translate_text ext request)
     <> Raises (HTTPException 500 "Internal server error").
Proof.
  leaf_cases ext request; rewrite Hm; unfold result; cbn [snd];
    (split; [|discriminate]);
    first [ left; eexists; reflexivity
          | right; left; reflexivity
          | right; right; left; reflexivity
          | right; right; right; reflexivity ].
Qed.

(** X2.  A request is refused with "Text cannot be empty" exactly when
    every code point of its text is whitespace (the empty text included),
    whatever the target language is. *)
Theorem empty_text_error_iff_all_whitespace
  (ext : collaborators) (request : TranslationRequest) :
  result (Main.translate_text ext request)
  = Raises (HTTPException 400 "Text cannot be empty")
  <-> forallb isspace (text request) = true.
Proof.
  rewrite <- strip_nil_iff.
  leaf_cases ext request; rewrite Hm; unfold result; cbn [snd];
    split; intros H; try reflexivity; try assumption;
    try discriminate H; try contradiction.
Qed.

(** ** Calls to the collaborators *)

(** X4.  A request that fails validation performs no event at all; any
    other request calls the Language Detector first, once, on the untrimmed
    text, and then calls the Translator at most once, with the request's
    target and the untrimmed text. *)
Theorem collaborator_call_discipline
  (ext : collaborators) (request : TranslationRequest) :
  (events (Main.translate_text ext request) = []
   /\ (strip (text request) = []
       \/ dict_contains (req_target_language request) Main.SUPPORTED_LANGUAGES
          = false))
  \/ (strip (text request) <> []
      /\ dict_contains (req_target_language request) Main.SUPPORTED_LANGUAGES
         = true
      /\ exists rest,
          events (Main.translate_text ext request)
          = Detect (text request) :: rest
          /\ filter is_detect rest = []
          /\ (filter is_translate rest = []
              \/ exists source,
                  filter is_translate rest
                  = [Translate source (req_target_language request)
                       (text request)])).
Proof.
  leaf_cases ext request; rewrite Hm; unfold events; cbn [fst];
    first [ left; split; [reflexivity | tauto]
          | right; split; [exact Hs|]; split; [exact Hc|];
            eexists; split; [reflexivity|]; split; [reflexivity|];
            first [ left; reflexivity | right; eexists; reflexivity ] ].
Qed.

(** X5.  For a non-empty text and a supported target, the Translator is
    called exactly when the detected language differs from the target, and
    then once, with the detected language as source, the target and the
    untrimmed text. *)
Theorem translator_called_iff_languages_differ
  (ext : collaborators) (request : TranslationRequest)
  (lang : str) (conf : float) :
  strip (text request) <> [] ->
  dict_contains (req_target_language request) Main.SUPPORTED_LANGUAGES = true ->
  result (Main.detect_language_with_confidence ext (text request))
  = Returns (lang, conf) ->
  filter is_translate (events (Main.translate_text ext request))
  = if str_eqb lang (req_target_language request) then []
    else [Translate lang (req_target_language request) (text request)].
Proof.
  intros Hne Hsup Hdet0.
  leaf_cases ext request; try contradiction; try congruence;
    rewrite Hm; unfold events; cbn [fst];
    rewrite HD in Hdet0; unfold result in Hdet0; cbn [snd] in Hdet0;
    injection Hdet0 as <- <-;
    first [ rewrite Hl, str_eqb_refl; reflexivity
          | rewrite (str_eqb_neq _ _ Hl); reflexivity ].
Qed.

(** ** Responses *)

(** X6.  A response is returned only for a non-empty text and a supported
    target; it echoes the untrimmed text and the target, carries the language
    and confidence of the detection step, and its [translated_text] is never
    empty: it is the text itself when the detected language is the target,
    and otherwise what the Translator returned. *)
Theorem success_response_invariants
  (ext : collaborators) (request : TranslationRequest)
  (r : TranslationResponse) :
  result (Main.translate_text ext request) = Returns r ->
  original_text r = text request
  /\ target_language r = req_target_language request
  /\ strip (text request) <> []
  /\ dict_contains (req_target_language request) Main.SUPPORTED_LANGUAGES = true
  /\ translated_text r <> []
  /\ result (Main.detect_language_with_confidence ext (text request))
     = Returns (detected_language r, confidence_level r)
  /\ (detected_language r = req_target_language request ->
      translated_text r = text request)
  /\ (detected_language r <> req_target_language request ->
      translate ext (detected_language r) (req_target_language request)
        (text request)
      = Returns (Some (translated_text r))).
Proof.
  intros H.
  assert (T : forall s : str, strip s <> [] -> s <> [])
    by (intros s Hn ->; apply Hn; reflexivity).
  leaf_cases ext request; rewrite Hm in H; unfold result in H;
    cbn [snd] in H; try discriminate H; injection H as <-;
    cbn [original_text target_language translated_text detected_language
         confidence_level];
    rewrite HD; unfold result; cbn [snd];
    (split; [reflexivity|]); (split; [reflexivity|]);
    (split; [exact Hs|]); (split; [exact Hc|]);
    (split; [first [apply T; exact Hs | discriminate]|]);
    (split; [reflexivity|]);
    (split; [intros; first [reflexivity | contradiction]
            |intros; first [contradiction | exact Htr]]).
Qed.

Lemma above_half_below_64 : above_half_below 64 = true.
Proof. vm_compute; reflexivity. Qed.

Lemma code_confidence_above_half (n : nat) :
  (Z.of_nat n < 2 ^ 63)%Z -> (0.5 <=? code_confidence n) = true.
Proof.
  intros Hhi. destruct (Nat.lt_ge_cases n 64) as [Hsmall|Hbig].
  - pose proof above_half_below_64 as T. unfold above_half_below in T.
    rewrite forallb_forall in T. apply T, in_seq. lia.
  - rewrite confidence_saturates_from_64 by lia. vm_compute; reflexivity.
Qed.

Lemma code_confidence_not_half (n : nat) :
  (Z.of_nat n < 2 ^ 63)%Z -> code_confidence n <> 0.5.
Proof.
  intros Hhi E. pose proof (code_confidence_bounds n Hhi) as [B _].
  rewrite E in B. vm_compute in B. discriminate B.
Qed.

(** X7.  In a response the confidence is 0.5 exactly when the Language
    Detector raised, and the detected language is then "en"; in every
    response the confidence lies between 0.5 and 0.95. *)
Theorem fallback_confidence_marks_detector_failure
  (ext : collaborators) (request : TranslationRequest)
  (r : TranslationResponse) :
  result (Main.translate_text ext request) = Returns r ->
  (Z.of_nat (len (text request)) < 2 ^ 63)%Z ->
  (confidence_level r = 0.5
   <-> exists e, detect ext (text request) = Raises e)
  /\ ((exists e, detect ext (text request) = Raises e) ->
      detected_language r = py "en")
  /\ (0.5 <=? confidence_level r) = true
  /\ (confidence_level r <=? 0.95) = true.
Proof.
  intros H Hlen.
  pose proof (code_confidence_not_half _ Hlen) as NH.
  pose proof (code_confidence_above_half _ Hlen) as AH.
  pose proof (code_confidence_bounds _ Hlen) as [_ UB].
  leaf_cases ext request; rewrite Hm in H; unfold result in H;
    cbn [snd] in H; try discriminate H; injection H as <-;
    cbn [detected_language confidence_level];
    (split; [split; [intros E; first [contradiction | eexists; exact Hdet]
                    |intros [e0 E]; first [reflexivity | congruence]]|]);
    (split; [intros [e0 E]; first [reflexivity | congruence]|]);
    (split; [first [exact AH | vm_compute; reflexivity]
            |first [exact UB | vm_compute; reflexivity]]).
Qed.

(** ** The confidence curve *)

Lemma strictly_increasing_upto_25 : strictly_increasing_upto 25 = true.
Proof. vm_compute; reflexivity. Qed.

(** X8.  The confidence grows strictly with the length up to 25
    characters and reaches 0.95 exactly at 25: a text has confidence 0.95
    if and only if it has at least 25 characters. *)
Theorem confidence_saturates_exactly_at_25 (n : nat) :
  (Z.of_nat n < 2 ^ 63)%Z ->
  (code_confidence n = 0.95 <-> (25 <= n)%nat)
  /\ (forall m, (n < m <= 25)%nat ->
                (code_confidence n <? code_confidence m) = true).
Proof.
  intros Hhi.
  assert (S : forall m, (n < m <= 25)%nat ->
                        (code_confidence n <? code_confidence m) = true).
  { intros m Hm. pose proof strictly_increasing_upto_25 as T.
    unfold strictly_increasing_upto in T. rewrite forallb_forall in T.
    assert (Hn : In n (seq 0 25)) by (apply in_seq; lia).
    specialize (T n Hn). rewrite forallb_forall in T.
    apply T, in_seq. lia. }
  split; [|exact S]. split.
  - intros E. destruct (Nat.lt_ge_cases n 25) as [Hlt|Hge]; [|exact Hge].
    exfalso. specialize (S 25%nat (conj Hlt (Nat.le_refl 25))).
    rewrite E in S. vm_compute in S. discriminate S.
  - intros Hge. apply code_confidence_saturated; assumption.
Qed.

(** ** Logging *)

(** X9.  What the handler logs: a "Translation error" line exactly for the
    requests that end with 500 "Translation service error"; a "Language
    detection failed" line, with the detector's exception, exactly for the
    validated requests whose detection raised; never an "Unexpected error"
    line; and nothing at all for a request refused with status 400. *)
Theorem failures_and_logging
  (ext : collaborators) (request : TranslationRequest) :
  ((exists e, In (LogError "Translation error" e)
                (events (Main.translate_text ext request)))
   <-> result (Main.translate_text ext request)
       = Raises (HTTPException 500 "Translation service error"))
  /\ (forall e,
         In (LogError "Language detection failed" e)
           (events (Main.translate_text ext request))
         <-> (strip (text request) <> []
              /\ dict_contains (req_target_language request)
                   Main.SUPPORTED_LANGUAGES = true
              /\ detect ext (text request) = Raises e))
  /\ (forall e, ~ In (LogError "Unexpected error" e)
                    (events (Main.translate_text ext request)))
  /\ (forall d, result (Main.translate_text ext request)
                = Raises (HTTPException 400 d) ->
                events (Main.translate_text ext request) = []).
Proof.
  leaf_cases ext request; rewrite Hm; unfold result, events; cbn [fst snd];
    (split; [split; [intros [e0 H]; cbn [In] in H;
                     repeat (destruct H as [H|H]; try discriminate H);
                     first [reflexivity | contradiction]
                    |intros H; try discriminate H;
                     eexists; cbn [In]; tauto]|]);
    (split; [intros e0; split;
             [intros H; cbn [In] in H;
              repeat (destruct H as [H|H]; try discriminate H);
              try contradiction;
              injection H as <-; tauto
             |intros (H1 & H2 & H3); try contradiction; try congruence;
              rewrite Hdet in H3; try discriminate H3;
              injection H3 as <-; cbn [In]; tauto]|]);
    (split; [intros e0 H; cbn [In] in H;
             repeat (destruct H as [H|H]; try discriminate H);
             contradiction
            |intros d H; first [reflexivity | discriminate H]]).
Qed.

(** ** The listing and the table *)

Lemma dict_contains_iff {V : Type} (key : str) (d : list (str * V)) :
  dict_contains key d = true <-> In key (map fst d).
Proof.
  unfold dict_contains. rewrite existsb_exists, in_map_iff. split.
  - intros (kv & Hin & E). apply str_eqb_eq in E. exists kv; auto.
  - intros (kv & E & Hin). exists kv. split; [exact Hin|].
    apply str_eqb_eq; auto.
Qed.

Lemma listing_is_map :
  Main.get_supported_languages
  = map (fun item => {| code := fst item;
                        name := names_name (snd item);
                        native_name := names_native_name (snd item) |})
      Main.SUPPORTED_LANGUAGES.
Proof. unfold Main.get_supported_languages. apply languages_loop. Qed.

Lemma listing_codes :
  map code Main.get_supported_languages = map fst Main.SUPPORTED_LANGUAGES.
Proof.
  rewrite listing_is_map, map_map. apply map_ext. intros kv; reflexivity.
Qed.

(** X10.  The listing names every code once; a record is listed exactly
    when the table maps its code to its two names, so a code determines its
    record. *)
Theorem languages_listing_content :
  NoDup (map code Main.get_supported_languages)
  /\ (forall info,
         In info Main.get_supported_languages
         <-> In (code info, {| names_name := name info;
                               names_native_name := native_name info |})
               Main.SUPPORTED_LANGUAGES)
  /\ (forall a b,
         In a Main.get_supported_languages ->
         In b Main.get_supported_languages ->
         code a = code b -> a = b).
Proof.
  assert (ND : NoDup (map code Main.get_supported_languages))
    by (rewrite listing_codes; exact SUPPORTED_LANGUAGES_keys_distinct).
  split; [exact ND|]. split.
  - intros [c n nn]. rewrite listing_is_map, in_map_iff. cbn [code name native_name].
    split.
    + intros ([k [n' nn']] & E & Hin). cbn [fst snd names_name names_native_name] in E.
      injection E as -> -> ->. exact Hin.
    + intros Hin. eexists; split; [|exact Hin]. reflexivity.
  - intros a b Ha Hb E.
    apply In_nth_error in Ha as [i Hi]. apply In_nth_error in Hb as [j Hj].
    assert (Hi' : nth_error (map code Main.get_supported_languages) i
                  = Some (code a)) by (rewrite nth_error_map, Hi; reflexivity).
    assert (Hj' : nth_error (map code Main.get_supported_languages) j
                  = Some (code b)) by (rewrite nth_error_map, Hj; reflexivity).
    assert (Hlt : (i < List.length (map code Main.get_supported_languages))%nat)
      by (apply nth_error_Some; rewrite Hi'; discriminate).
    rewrite E in Hi'.
    pose proof (proj1 (NoDup_nth_error _) ND i j Hlt
                  (eq_trans Hi' (eq_sym Hj'))) as <-.
    congruence.
Qed.

(** X3.  For a text that is not all whitespace, the target languages
    refused with "Target language not supported" are exactly those that are
    the code of no listed language. *)
Theorem unsupported_target_iff_not_listed
  (ext : collaborators) (request : TranslationRequest) :
  forallb isspace (text request) = false ->
  result (Main.translate_text ext request)
  = Raises (HTTPException 400 "Target language not supported")
  <-> (forall info, In info Main.get_supported_languages ->
                    code info <> req_target_language request).
Proof.
  intros Hws.
  assert (L : dict_contains (req_target_language request)
                Main.SUPPORTED_LANGUAGES = true
              <-> exists info, In info Main.get_supported_languages
                               /\ code info = req_target_language request).
  { rewrite dict_contains_iff, <- listing_codes, in_map_iff.
    split; intros (info & H1 & H2); exists info; auto. }
  leaf_cases ext request; rewrite Hm; unfold result; cbn [snd];
    [ apply strip_nil_iff in Hs; congruence
    | split; [|reflexivity]; intros _ info Hin E;
      assert (C : dict_contains (req_target_language request)
                    Main.SUPPORTED_LANGUAGES = true)
        by (apply L; exists info; auto);
      congruence
    | split; [discriminate|]; intros H; exfalso;
      apply L in Hc as (info & Hin & E); exact (H info Hin E) .. ].
Qed.

(** ** The outcome as a function of what the collaborators answer *)

Lemma translate_text_result
  (ext : collaborators) (request : TranslationRequest) :
  result (Main.translate_text ext request)
  = match strip (text request) with
    | [] => Raises (HTTPException 400 "Text cannot be empty")
    | _ :: _ =>
        if dict_contains (req_target_language request) Main.SUPPORTED_LANGUAGES
        then
          let dc := match detect ext (text request) with
                    | Returns l => (l, code_confidence (len (text request)))
                    | Raises _ => (py "en", 0.5)
                    end in
          if str_eqb (fst dc) (req_target_language request) then
            Returns {| original_text := text request;
                       detected_language := fst dc;
                       confidence_level := snd dc;
                       translated_text := text request;
                       target_language := req_target_language request |}
          else
            match translate ext (fst dc) (req_target_language request)
                    (text request) with
            | Returns (Some (c :: s)) =>
                Returns {| original_text := text request;
                           detected_language := fst dc;
                           confidence_level := snd dc;
                           translated_text := c :: s;
                           target_language := req_target_language request |}
            | _ => Raises (HTTPException 500 "Translation service error")
            end
        else Raises (HTTPException 400 "Target language not supported")
    end.
Proof.
  leaf_cases ext request; rewrite Hm; unfold result; cbn [snd];
    destruct (strip (text request)) as [|c0 s0] eqn:Hs0;
    try reflexivity; try congruence;
    rewrite Hc; try reflexivity;
    rewrite Hdet; cbn [fst snd];
    first [ rewrite Hl, str_eqb_refl; reflexivity
          | rewrite (str_eqb_neq _ _ Hl), Htr; reflexivity ].
Qed.

(** X11.  The outcome of a request does not depend on which exception a
    collaborator raises: two pairs of collaborators that return the same
    values and raise on the same inputs lead to the same response or the
    same error, so no exception text reaches the caller. *)
Theorem outcome_independent_of_exception_raised
  (ext1 ext2 : collaborators) (request : TranslationRequest) :
  (forall t, same_up_to_exn (detect ext1 t) (detect ext2 t)) ->
  (forall s g t, same_up_to_exn (translate ext1 s g t) (translate ext2 s g t)) ->
  result (Main.translate_text ext1 request)
  = result (Main.translate_text ext2 request).
Proof.
  intros HD HT. rewrite !translate_text_result.
  destruct (strip (text request)) as [|c0 s0]; [reflexivity|].
  destruct (dict_contains (req_target_language request)
              Main.SUPPORTED_LANGUAGES); [|reflexivity].
  specialize (HD (text request)).
  destruct (detect ext1 (text request)) as [l1|e1],
           (detect ext2 (text request)) as [l2|e2];
    cbn [same_up_to_exn] in HD; try contradiction; subst; cbv zeta;
    cbn [fst snd].
  - destruct (str_eqb l2 (req_target_language request)); [reflexivity|].
    specialize (HT l2 (req_target_language request) (text request)).
    destruct (translate ext1 l2 (req_target_language request) (text request))
      as [o1|x1],
      (translate ext2 l2 (req_target_language request) (text request))
      as [o2|x2];
      cbn [same_up_to_exn] in HT; try contradiction; subst; reflexivity.
  - destruct (str_eqb (py "en") (req_target_language request)); [reflexivity|].
    specialize (HT (py "en") (req_target_language request) (text request)).
    destruct (translate ext1 (py "en") (req_target_language request)
                (text request)) as [o1|x1],
      (translate ext2 (py "en") (req_target_language request)
         (text request)) as [o2|x2];
      cbn [same_up_to_exn] in HT; try contradiction; subst; reflexivity.
Qed.

(** ** The other application file *)

(** X12.  [main_vercel.py] lists the same languages as [main.py], in the
    same order, and its detection step performs the same events with the
    same result. *)
Theorem vercel_listing_and_detection_agree :
  MainVercel.get_supported_languages = Main.get_supported_languages
  /\ forall ext t,
      MainVercel.detect_language_with_confidence ext t
      = Main.detect_language_with_confidence ext t.
Proof. split; [reflexivity | intros; reflexivity]. Qed.

(** ** The test script against the application *)



(** X13.  Run against the application, the health, languages and error
    handling tests of [test_app.py] pass whatever the two collaborators do:
    the empty text and the target "invalid_lang" are both answered with
    status 400. *)
Theorem collaborator_independent_tests_pass (ext : collaborators) :
  TestApp.test_health_check (app_client ext) = true
  /\ TestApp.test_get_languages (app_client ext) = true
  /\ TestApp.test_error_handling (app_client ext) = true.
Proof.
  split; [reflexivity|]. split; [reflexivity|].
  unfold TestApp.test_error_handling. cbn [app_client post_translate].
  unfold respond. rewrite !translate_text_result.
  vm_compute; reflexivity.
Qed.



(** ** Concrete requests for the further properties *)

Lemma unsupported_target_iff_not_listed_witness :
  let ext := stub (Returns (py "en")) (Returns (Some (py "Hola"))) in
  let request := {| text := py "Hello";
                    req_target_language := py "invalid_lang" |} in
  forallb isspace (text request) = false
  /\ (result (Main.translate_text ext request)
      = Raises (HTTPException 400 "Target language not supported")
      <-> (forall info, In info Main.get_supported_languages ->
                        code info <> req_target_language request)).
Proof.
  cbv zeta. split; [vm_compute; reflexivity|].
  apply (unsupported_target_iff_not_listed
           (stub (Returns (py "en")) (Returns (Some (py "Hola"))))
           {| text := py "Hello"; req_target_language := py "invalid_lang" |}).
  vm_compute; reflexivity.
Defined.

Lemma translator_called_iff_languages_differ_witness :
  let ext := stub (Returns (py "en")) (Returns (Some (py "Hola, mundo!"))) in
  let request := {| text := py "Hello, world!"; req_target_language := py "es" |} in
  strip (text request) <> []
  /\ dict_contains (req_target_language request) Main.SUPPORTED_LANGUAGES = true
  /\ result (Main.detect_language_with_confidence ext (text request))
     = Returns (py "en", code_confidence 13)
  /\ filter is_translate (events (Main.translate_text ext request))
     = [Translate (py "en") (py "es") (py "Hello, world!")].
Proof.
  cbv zeta.
  split; [vm_compute; discriminate|].
  split; [vm_compute; reflexivity|].
  split; [reflexivity|].
  exact (translator_called_iff_languages_differ
           (stub (Returns (py "en")) (Returns (Some (py "Hola, mundo!"))))
           {| text := py "Hello, world!"; req_target_language := py "es" |}
           (py "en") (code_confidence 13)
           ltac:(vm_compute; discriminate)
           ltac:(vm_compute; reflexivity)
           eq_refl).
Defined.

Lemma success_response_invariants_witness :
  let ext := stub (Returns (py "fr")) (Returns (Some (py "Hello world!"))) in
  let request := {| text := py "Bonjour le monde!"; req_target_language := py "en" |} in
  let r := {| original_text := py "Bonjour le monde!";
              detected_language := py "fr";
              confidence_level := code_confidence 17;
              translated_text := py "Hello world!";
              target_language := py "en" |} in
  result (Main.translate_text ext request) = Returns r
  /\ original_text r = text request
  /\ target_language r = req_target_language request
  /\ strip (text request) <> []
  /\ dict_contains (req_target_language request) Main.SUPPORTED_LANGUAGES = true
  /\ translated_text r <> []
  /\ result (Main.detect_language_with_confidence ext (text request))
     = Returns (detected_language r, confidence_level r)
  /\ (detected_language r = req_target_language request ->
      translated_text r = text request)
  /\ (detected_language r <> req_target_language request ->
      translate ext (detected_language r) (req_target_language request)
        (text request)
      = Returns (Some (translated_text r))).
Proof.
  cbv zeta. split; [reflexivity|].
  apply (success_response_invariants
           (stub (Returns (py "fr")) (Returns (Some (py "Hello world!"))))
           {| text := py "Bonjour le monde!"; req_target_language := py "en" |}).
  reflexivity.
Defined.

Lemma fallback_confidence_marks_detector_failure_witness :
  let ext := stub (Raises (LibraryError "No features in text."))
                  (Returns (Some (py "un deux trois"))) in
  let request := {| text := py "1 2 3"; req_target_language := py "fr" |} in
  let r := {| original_text := py "1 2 3";
              detected_language := py "en";
              confidence_level := 0.5;
              translated_text := py "un deux trois";
              target_language := py "fr" |} in
  result (Main.translate_text ext request) = Returns r
  /\ (Z.of_nat (len (text request)) < 2 ^ 63)%Z
  /\ (confidence_level r = 0.5
      <-> exists e, detect ext (text request) = Raises e)
  /\ ((exists e, detect ext (text request) = Raises e) ->
      detected_language r = py "en")
  /\ (0.5 <=? confidence_level r) = true
  /\ (confidence_level r <=? 0.95) = true.
Proof.
  cbv zeta. split; [reflexivity|]. split; [vm_compute; reflexivity|].
  apply (fallback_confidence_marks_detector_failure
           (stub (Raises (LibraryError "No features in text."))
                 (Returns (Some (py "un deux trois"))))
           {| text := py "1 2 3"; req_target_language := py "fr" |}).
  - reflexivity.
  - vm_compute; reflexivity.
Defined.

Lemma confidence_saturates_exactly_at_25_witness :
  (Z.of_nat 10 < 2 ^ 63)%Z
  /\ (code_confidence 10 = 0.95 <-> (25 <= 10)%nat)
  /\ (forall m, (10 < m <= 25)%nat ->
                (code_confidence 10 <? code_confidence m) = true).
Proof.
  split; [vm_compute; reflexivity|].
  apply (confidence_saturates_exactly_at_25 10).
  vm_compute; reflexivity.
Defined.

Lemma outcome_independent_of_exception_raised_witness :
  let ext1 := stub (Raises (LibraryError "No features in text."))
                   (Raises (LibraryError "TooManyRequests")) in
  let ext2 := stub (Raises (LibraryError "timeout"))
                   (Raises (HTTPException 418 "teapot")) in
  let request := {| text := py "anything"; req_target_language := py "fr" |} in
  (forall t, same_up_to_exn (detect ext1 t) (detect ext2 t))
  /\ (forall s g t,
         same_up_to_exn (translate ext1 s g t) (translate ext2 s g t))
  /\ result (Main.translate_text ext1 request)
     = result (Main.translate_text ext2 request).
Proof.
  cbv zeta. split; [intros; exact I|]. split; [intros; exact I|].
  apply (outcome_independent_of_exception_raised
           (stub (Raises (LibraryError "No features in text."))
                 (Raises (LibraryError "TooManyRequests")))
           (stub (Raises (LibraryError "timeout"))
                 (Raises (HTTPException 418 "teapot")))
           {| text := py "anything"; req_target_language := py "fr" |}).
  - intros; exact I.
  - intros; exact I.
Defined.
